(** * Builders of Dialogflow CX route resources (dfcx_scrapi/builders/routes.py)

    A shallow embedding of the three builder classes of [routes.py]
    ([FulfillmentBuilder], [TransitionRouteBuilder], [EventHandlerBuilder])
    and the properties of their load / create / add operations.

    Python values are dynamically typed, and the builders decide most of
    their behaviour by [isinstance] tests and by truthiness, so arguments are
    modelled as values of one type [pyval]; each method is a function from
    the builder's state to an outcome (a returned value or a raised
    exception) and the state after the call. *)

From Stdlib Require Import String Ascii List Bool ZArith Lia.
Import ListNotations.
Open Scope string_scope.
Set Warnings "-register-all".

(** ** Exceptions *)

Inductive exc_class : Type :=
| ValueError | PyException | TypeError | AttributeError | OverflowError.

Record pyexc : Type := mk_exc { exc_type : exc_class; exc_msg : string }.

Definition LF : string := String (ascii_of_nat 10) EmptyString.

(** ** The resource records

    The record types ([types.Fulfillment], [types.ResponseMessage],
    [types.TransitionRoute], [types.EventHandler]) and [struct_pb2.Struct]
    are declared by the client library of the service, outside this
    repository. *)

(** Modelled from the spec: [google.protobuf.Struct], the string-keyed
    mapping that carries the metadata of a live-agent-handoff or
    conversation-success message. *)
Inductive struct_value : Type :=
| SNull
| SBool (b : bool)
| SNumber (z : Z)
| SString (s : string)
| SList (l : list struct_value)
| SStruct (fields : list (string * struct_value)).

(** Modelled from the spec: synthesized-audio text with a mode tag of
    text or markup ([ResponseMessage.OutputAudioText], a one-of of [text]
    and [ssml]). *)
Inductive OutputAudioText : Type :=
| OAT_text (text : string)
| OAT_ssml (ssml : string).

(** Modelled from the spec: the response-message entry, a tagged variant
    with exactly one variant populated ([types.ResponseMessage]). *)
Inductive ResponseMessage : Type :=
| RM_text (text : list string)
| RM_live_agent_handoff (metadata : list (string * struct_value))
| RM_conversation_success (metadata : list (string * struct_value))
| RM_output_audio_text (oat : OutputAudioText)
| RM_play_audio (audio_uri : string)
| RM_telephony_transfer_call (phone_number : string).

(** Modelled from the spec: a (parameter-name, value) preset pair
    ([Fulfillment.SetParameterAction]). *)
Record SetParameterAction : Type := mk_SetParameterAction {
  parameter : string;
  value : string
}.

(** Modelled from the spec: the fulfillment record ([types.Fulfillment]).
    An unset string field reads as the empty string and an unset flag as
    [false], as in proto3. *)
Record Fulfillment : Type := mk_Fulfillment {
  messages : list ResponseMessage;
  webhook : string;
  return_partial_responses : bool;
  tag : string;
  set_parameter_actions : list SetParameterAction
}.

(** Modelled from the spec: the target of a route, at most one of a
    destination page and a destination flow (the one-of [target] of
    [types.TransitionRoute] and [types.EventHandler]). *)
Inductive target : Type :=
| target_page_of (page : string)
| target_flow_of (flow : string).

(** Modelled from the spec: the transition-route record
    ([types.TransitionRoute]). *)
Record TransitionRoute : Type := mk_TransitionRoute {
  tr_intent : string;
  tr_condition : string;
  tr_trigger_fulfillment : option Fulfillment;
  tr_target : option target
}.

(** Modelled from the spec: the event-handler record
    ([types.EventHandler]). *)
Record EventHandler : Type := mk_EventHandler {
  eh_event : string;
  eh_trigger_fulfillment : option Fulfillment;
  eh_target : option target
}.

(** [types.Fulfillment()]: no field set. *)
Definition empty_Fulfillment : Fulfillment :=
  mk_Fulfillment [] "" false "" [].

(** ** Python values *)

Inductive pyval : Type :=
| VNone
| VBool (b : bool)
| VInt (z : Z)
| VStr (s : string)
| VList (l : list pyval)
| VDict (d : list (pyval * pyval))
| VResponseMessage (m : ResponseMessage)
| VFulfillment (f : Fulfillment)
| VTransitionRoute (r : TransitionRoute)
| VEventHandler (h : EventHandler)
| VBuilder (held : pyval).

Definition nonempty_string (s : string) : bool :=
  match s with EmptyString => false | String _ _ => true end.

Definition nonempty_list {A : Type} (l : list A) : bool :=
  match l with [] => false | _ :: _ => true end.

Definition is_some {A : Type} (o : option A) : bool :=
  match o with Some _ => true | None => false end.

(** Modelled from the spec: the truth value of a record, on which presence
    of the held record is decided. The client library defines it: a message
    is true when at least one of its fields is set, that is a non-empty
    string or list, a true flag, a sub-record that is present, a target that
    is chosen. *)
Definition bool_Fulfillment (f : Fulfillment) : bool :=
  nonempty_list (messages f) || nonempty_string (webhook f) ||
  return_partial_responses f || nonempty_string (tag f) ||
  nonempty_list (set_parameter_actions f).

Definition bool_TransitionRoute (r : TransitionRoute) : bool :=
  nonempty_string (tr_intent r) || nonempty_string (tr_condition r) ||
  is_some (tr_trigger_fulfillment r) || is_some (tr_target r).

Definition bool_EventHandler (h : EventHandler) : bool :=
  nonempty_string (eh_event h) || is_some (eh_trigger_fulfillment h) ||
  is_some (eh_target h).

(** Python's truth value testing, [bool(v)]. *)
Definition truthy (v : pyval) : bool :=
  match v with
  | VNone => false
  | VBool b => b
  | VInt z => negb (Z.eqb z 0)
  | VStr s => nonempty_string s
  | VList l => nonempty_list l
  | VDict d => nonempty_list d
  | VResponseMessage _ => true
  | VFulfillment f => bool_Fulfillment f
  | VTransitionRoute r => bool_TransitionRoute r
  | VEventHandler h => bool_EventHandler h
  | VBuilder _ => true
  end.

(** [isinstance(v, str)], [isinstance(v, bool)], ... *)
Definition is_str (v : pyval) : bool :=
  match v with VStr _ => true | _ => false end.
Definition is_bool (v : pyval) : bool :=
  match v with VBool _ => true | _ => false end.
Definition is_list (v : pyval) : bool :=
  match v with VList _ => true | _ => false end.
Definition is_dict (v : pyval) : bool :=
  match v with VDict _ => true | _ => false end.
Definition is_Fulfillment (v : pyval) : bool :=
  match v with VFulfillment _ => true | _ => false end.
Definition is_TransitionRoute (v : pyval) : bool :=
  match v with VTransitionRoute _ => true | _ => false end.
Definition is_EventHandler (v : pyval) : bool :=
  match v with VEventHandler _ => true | _ => false end.

(** [v == s] for a string literal [s]. *)
Definition eq_str (v : pyval) (s : string) : bool :=
  match v with VStr t => String.eqb t s | _ => false end.

(** ** Outcomes and the state of a builder *)

Inductive outcome (A : Type) : Type :=
| Return (a : A)
| Raise (e : pyexc).
Arguments Return {A} a.
Arguments Raise {A} e.

(** Every builder class has the single attribute [proto_obj]. *)
Record builder : Type := mk_builder { proto_obj : pyval }.

(** A method: the outcome of the call and the builder after it. *)
Definition method (A : Type) : Type := builder -> outcome A * builder.

Definition ret {A : Type} (a : A) : method A := fun b => (Return a, b).
Definition raise {A : Type} (e : pyexc) : method A := fun b => (Raise e, b).
Definition bind {A B : Type} (m : method A) (k : A -> method B) : method B :=
  fun b => match m b with
           | (Return a, b') => k a b'
           | (Raise e, b') => (Raise e, b')
           end.
Definition get_proto_obj : method pyval := fun b => (Return (proto_obj b), b).
Definition set_proto_obj (v : pyval) : method unit :=
  fun _ => (Return tt, mk_builder v).
(** A computation that does not touch the builder. *)
Definition lift {A : Type} (o : outcome A) : method A := fun b => (o, b).

Notation "x <- m ;; k" := (bind m (fun x => k))
  (at level 61, m at next level, right associativity).
Notation "m ;;; k" := (bind m (fun _ => k))
  (at level 61, right associativity).

(** [if c: raise e] *)
Definition raise_if (c : bool) (e : pyexc) : method unit :=
  if c then raise e else ret tt.

(** [self.proto_obj = None] of every [__init__]. *)
Definition fresh : builder := mk_builder VNone.

(** ** Calling a Python function

    Arguments are bound to the parameters of a [def] as the interpreter
    does it: positional arguments fill the parameters from the left, each
    keyword argument must name a parameter that has no value yet, and a
    parameter left without a value takes its default. *)

Record signature : Type := mk_signature {
  fn_name : string;
  fn_params : list (string * option pyval)
}.

Definition env : Type := list (string * pyval).

Fixpoint lookup (e : env) (k : string) : option pyval :=
  match e with
  | [] => None
  | (k', v) :: e' => if String.eqb k' k then Some v else lookup e' k
  end.

Definition get (e : env) (k : string) : pyval :=
  match lookup e k with Some v => v | None => VNone end.

Definition too_many_positional (fn : string) : pyexc :=
  mk_exc TypeError (fn ++ "() takes fewer positional arguments than were given").
Definition unexpected_keyword (fn k : string) : pyexc :=
  mk_exc TypeError (fn ++ "() got an unexpected keyword argument '" ++ k ++ "'").
Definition multiple_values (fn k : string) : pyexc :=
  mk_exc TypeError (fn ++ "() got multiple values for argument '" ++ k ++ "'").
Definition missing_argument (fn k : string) : pyexc :=
  mk_exc TypeError (fn ++ "() missing 1 required positional argument: '" ++ k ++ "'").

Fixpoint bind_positional (fn : string) (ps : list (string * option pyval))
    (args : list pyval) : outcome env :=
  match args, ps with
  | [], _ => Return []
  | _ :: _, [] => Raise (too_many_positional fn)
  | a :: args', (p, _) :: ps' =>
      match bind_positional fn ps' args' with
      | Return e => Return ((p, a) :: e)
      | Raise x => Raise x
      end
  end.

Fixpoint bind_keywords (fn : string) (names : list string) (e : env)
    (kwargs : list (string * pyval)) : outcome env :=
  match kwargs with
  | [] => Return e
  | (k, v) :: kwargs' =>
      if negb (existsb (String.eqb k) names) then Raise (unexpected_keyword fn k)
      else match lookup e k with
           | Some _ => Raise (multiple_values fn k)
           | None => bind_keywords fn names ((k, v) :: e) kwargs'
           end
  end.

Fixpoint fill_defaults (fn : string) (ps : list (string * option pyval))
    (e : env) : outcome env :=
  match ps with
  | [] => Return e
  | (p, d) :: ps' =>
      match lookup e p, d with
      | Some _, _ => fill_defaults fn ps' e
      | None, Some v => fill_defaults fn ps' ((p, v) :: e)
      | None, None => Raise (missing_argument fn p)
      end
  end.

Definition bind_args (sg : signature) (args : list pyval)
    (kwargs : list (string * pyval)) : outcome env :=
  match bind_positional (fn_name sg) (fn_params sg) args with
  | Raise x => Raise x
  | Return e =>
      match bind_keywords (fn_name sg) (map fst (fn_params sg)) e kwargs with
      | Raise x => Raise x
      | Return e' => fill_defaults (fn_name sg) (fn_params sg) e'
      end
  end.

(** ** Constructors of the client library

    A keyword argument that is [None] leaves its field unset, a value of
    the field's type sets it, and any other value is refused with a
    [TypeError]. A field that holds a record also takes a dictionary, from
    which the library builds the record: the empty dictionary gives the
    empty record, present in its parent. The guards of the builders stop
    every true value that is not a fulfillment, so a dictionary with entries
    never reaches a constructor, and it is left with the refused values. *)

Definition bad_field (cls fld : string) : pyexc :=
  mk_exc TypeError ("bad argument type for field " ++ fld ++ " of " ++ cls).

Definition str_field (cls fld : string) (v : pyval) : outcome string :=
  match v with
  | VNone => Return ""
  | VStr s => Return s
  | _ => Raise (bad_field cls fld)
  end.

(** A flag also takes an integer, read as its truth value. *)
Definition bool_field (cls fld : string) (v : pyval) : outcome bool :=
  match v with
  | VNone => Return false
  | VBool b => Return b
  | VInt z => Return (negb (Z.eqb z 0))
  | _ => Raise (bad_field cls fld)
  end.

Definition Fulfillment_field (cls fld : string) (v : pyval)
    : outcome (option Fulfillment) :=
  match v with
  | VNone => Return None
  | VFulfillment f => Return (Some f)
  | VDict [] => Return (Some empty_Fulfillment)
  | _ => Raise (bad_field cls fld)
  end.

(** The one-of [target]: of [target_page] and [target_flow], given in this
    order, the one set last stays. *)
Definition target_field (cls : string) (page flow : pyval)
    : outcome (option target) :=
  match page, flow with
  | VNone, VNone => Return None
  | VStr p, VNone => Return (Some (target_page_of p))
  | VNone, VStr f => Return (Some (target_flow_of f))
  | VStr _, VStr f => Return (Some (target_flow_of f))
  | VNone, _ | VStr _, _ => Raise (bad_field cls "target_flow")
  | _, _ => Raise (bad_field cls "target_page")
  end.

Definition obind {A B : Type} (o : outcome A) (k : A -> outcome B) : outcome B :=
  match o with Return a => k a | Raise e => Raise e end.

(** [types.Fulfillment(webhook=.., return_partial_responses=.., tag=..)] *)
Definition new_Fulfillment (webhook return_partial_responses tag : pyval)
    : outcome Fulfillment :=
  obind (str_field "Fulfillment" "webhook" webhook) (fun w =>
  obind (bool_field "Fulfillment" "return_partial_responses"
           return_partial_responses) (fun r =>
  obind (str_field "Fulfillment" "tag" tag) (fun t =>
  Return (mk_Fulfillment [] w r t [])))).

(** [types.Fulfillment.SetParameterAction(parameter=.., value=..)] *)
Definition new_SetParameterAction (parameter value : pyval)
    : outcome SetParameterAction :=
  obind (str_field "SetParameterAction" "parameter" parameter) (fun p =>
  obind (str_field "SetParameterAction" "value" value) (fun v =>
  Return (mk_SetParameterAction p v))).

(** [types.TransitionRoute(intent=.., condition=.., trigger_fulfillment=..,
    target_page=.., target_flow=..)] *)
Definition new_TransitionRoute
    (intent condition trigger_fulfillment target_page target_flow : pyval)
    : outcome TransitionRoute :=
  obind (str_field "TransitionRoute" "intent" intent) (fun i =>
  obind (str_field "TransitionRoute" "condition" condition) (fun c =>
  obind (Fulfillment_field "TransitionRoute" "trigger_fulfillment"
           trigger_fulfillment) (fun f =>
  obind (target_field "TransitionRoute" target_page target_flow) (fun t =>
  Return (mk_TransitionRoute i c f t))))).

(** [types.EventHandler(event=.., trigger_fulfillment=.., target_page=..,
    target_flow=..)] *)
Definition new_EventHandler
    (event trigger_fulfillment target_page target_flow : pyval)
    : outcome EventHandler :=
  obind (str_field "EventHandler" "event" event) (fun e =>
  obind (Fulfillment_field "EventHandler" "trigger_fulfillment"
           trigger_fulfillment) (fun f =>
  obind (target_field "EventHandler" target_page target_flow) (fun t =>
  Return (mk_EventHandler e f t)))).

(** [struct_pb2.Struct().update(message)]: the entries are taken in
    order, and every value becomes a value of the mapping: [None], a boolean
    (tested before the numbers), a string, a number, a dictionary, a list;
    any other value raises the [ValueError] on its type. A number is stored
    as a double, so an integer out of the range of the doubles raises an
    [OverflowError], and [SNumber z] stands for the double nearest to [z].
    The key of an entry of a dictionary inside the message has to be a
    string, or the library raises a [TypeError]. *)
Definition unexpected_type : pyexc := mk_exc ValueError "Unexpected type".
Definition int_too_large : pyexc :=
  mk_exc OverflowError "int too large to convert to float".
Definition bad_struct_key : pyexc :=
  mk_exc TypeError "bad argument type for the key of a Struct field".

(** The integers that round to a double: below [2^1024 - 2^970] in absolute
    value, half way between the largest double and [2^1024]. *)
Definition double_overflow (z : Z) : bool :=
  (2 ^ 1024 - 2 ^ 970 <=? Z.abs z)%Z.

Fixpoint to_struct_value (v : pyval) : outcome struct_value :=
  match v with
  | VNone => Return SNull
  | VBool b => Return (SBool b)
  | VStr s => Return (SString s)
  | VInt z => if double_overflow z then Raise int_too_large
              else Return (SNumber z)
  | VDict d =>
      match
        (fix fields (d : list (pyval * pyval))
           : outcome (list (string * struct_value)) :=
           match d with
           | [] => Return []
           | (VStr k, x) :: d' =>
               match to_struct_value x with
               | Raise e => Raise e
               | Return a =>
                   match fields d' with
                   | Raise e => Raise e
                   | Return r => Return ((k, a) :: r)
                   end
               end
           | _ :: _ => Raise bad_struct_key
           end) d
      with
      | Return fs => Return (SStruct fs)
      | Raise e => Raise e
      end
  | VList l =>
      match
        (fix items (l : list pyval) : outcome (list struct_value) :=
           match l with
           | [] => Return []
           | x :: l' =>
               match to_struct_value x with
               | Raise e => Raise e
               | Return a =>
                   match items l' with
                   | Raise e => Raise e
                   | Return r => Return (a :: r)
                   end
               end
           end) l
      with
      | Return vs => Return (SList vs)
      | Raise e => Raise e
      end
  | _ => Raise unexpected_type
  end.

Definition Struct_update (message : list (pyval * pyval))
    : outcome (list (string * struct_value)) :=
  match to_struct_value (VDict message) with
  | Return (SStruct fields) => Return fields
  | Return _ => Raise unexpected_type
  | Raise e => Raise e
  end.

(** The strings of a list of values. *)
Fixpoint strings_of (l : list pyval) : list string :=
  match l with
  | [] => []
  | VStr s :: l' => s :: strings_of l'
  | _ :: l' => strings_of l'
  end.

(** ** FulfillmentBuilder *)

Module FulfillmentBuilder.

(** The exceptions of the class, one per [raise]. *)
Definition no_proto_obj : pyexc :=
  mk_exc ValueError
    ("There is no proto_obj!" ++ LF ++
     "Use create_empty_fulfillment or load_fulfillment to continue.").
Definition not_a_Fulfillment_type : pyexc :=
  mk_exc ValueError
    ("proto_obj is not a Fulfillment type." ++ LF ++
     "Please create or load the correct type to continue.").
Definition load_not_a_Fulfillment : pyexc :=
  mk_exc ValueError "The object you're trying to load is not a Fulfillment!".
Definition already_contains : pyexc :=
  mk_exc PyException
    ("proto_obj already contains a Fulfillment." ++
     " If you wish to overwrite it, pass overwrite as True.").
Definition only_strings_in_list : pyexc :=
  mk_exc ValueError "Only strings are allowed in message list.".
Definition text_str_or_list : pyexc :=
  mk_exc ValueError
    ("For 'text' message should be" ++ " either a string or a list of strings.").
Definition only_string_keys : pyexc :=
  mk_exc ValueError "Only strings are allowed as dictionary keys in message.".
Definition live_agent_handoff_dict : pyexc :=
  mk_exc ValueError
    ("For 'live_agent_handoff'," ++ " message should be a dictionary.").
Definition only_string_keys' : pyexc :=
  mk_exc ValueError "Only strings are allowed as dictionary keys in message".
Definition conversation_success_dict : pyexc :=
  mk_exc ValueError
    ("For 'conversation_success'," ++ " message should be a dictionary.").
Definition bad_mode : pyexc :=
  mk_exc ValueError
    ("mode should be either 'text' or 'ssml'" ++ " for output_audio_text.").
Definition output_audio_text_str : pyexc :=
  mk_exc ValueError "For 'output_audio_text', message should be a string.".
Definition play_audio_uri : pyexc :=
  mk_exc ValueError "For 'play_audio', message should be a valid URI.".
Definition telephony_phone_number : pyexc :=
  mk_exc ValueError
    ("For 'telephony_transfer_call'," ++
     " message should be a valid E.164 format phone number.").
Definition bad_response_type : pyexc :=
  mk_exc ValueError
    ("response_type should be one of the following:" ++
     " 'text', 'live_agent_handoff', 'conversation_success'," ++
     " 'output_audio_text', 'play_audio', 'telephony_transfer_call'").
Definition only_strings_in_map : pyexc :=
  mk_exc ValueError
    ("Only strings are allowed as" ++
     " dictionary keys and values in parameter_map.").
Definition parameter_map_dict : pyexc :=
  mk_exc ValueError "parameter_map should be a dictionary.".
Definition return_partial_responses_bool : pyexc :=
  mk_exc ValueError "return_partial_responses should be bool.".
Definition webhook_tag_string : pyexc :=
  mk_exc ValueError "webhook and tag should be string.".
Definition tag_required : pyexc :=
  mk_exc ValueError "tag is required when webhook is specified.".

(** [_check_fulfillment_exist] *)
Definition _check_fulfillment_exist : method unit :=
  p <- get_proto_obj ;;
  if negb (truthy p) then raise no_proto_obj
  else if negb (is_Fulfillment p) then raise not_a_Fulfillment_type
  else ret tt.

(** [load_fulfillment] *)
Definition load_fulfillment (obj overwrite : pyval) : method pyval :=
  raise_if (negb (is_Fulfillment obj)) load_not_a_Fulfillment ;;;
  p <- get_proto_obj ;;
  raise_if (truthy p && negb (truthy overwrite)) already_contains ;;;
  p <- get_proto_obj ;;
  (if truthy overwrite || negb (truthy p) then set_proto_obj obj else ret tt) ;;;
  get_proto_obj.

(** [__init__] *)
Definition __init__ (obj : pyval) : outcome unit * builder :=
  (set_proto_obj VNone ;;;
   if truthy obj then load_fulfillment obj (VBool false) ;;; ret tt
   else ret tt) fresh.

(** The [if]/[elif] chain of [_response_message_creator], which assigns
    the local variable [response_message] or raises. *)
Definition response_message_of (response_type message mode : pyval)
    : outcome ResponseMessage :=
  if eq_str response_type "text" then
    match message with
    | VStr s => Return (RM_text [s])
    | VList l =>
        if negb (forallb is_str l) then Raise only_strings_in_list
        else Return (RM_text (strings_of l))
    | _ => Raise text_str_or_list
    end
  else if eq_str response_type "live_agent_handoff" then
    match message with
    | VDict d =>
        if negb (forallb (fun kv => is_str (fst kv)) d)
        then Raise only_string_keys
        else obind (Struct_update d) (fun proto_struct =>
             Return (RM_live_agent_handoff proto_struct))
    | _ => Raise live_agent_handoff_dict
    end
  else if eq_str response_type "conversation_success" then
    match message with
    | VDict d =>
        if negb (forallb (fun kv => is_str (fst kv)) d)
        then Raise only_string_keys'
        else obind (Struct_update d) (fun proto_struct =>
             Return (RM_conversation_success proto_struct))
    | _ => Raise conversation_success_dict
    end
  else if eq_str response_type "output_audio_text" then
    match message with
    | VStr s =>
        if eq_str mode "text" then Return (RM_output_audio_text (OAT_text s))
        else if eq_str mode "ssml" then Return (RM_output_audio_text (OAT_ssml s))
        else Raise bad_mode
    | _ => Raise output_audio_text_str
    end
  else if eq_str response_type "play_audio" then
    match message with
    | VStr s => Return (RM_play_audio s)
    | _ => Raise play_audio_uri
    end
  else if eq_str response_type "telephony_transfer_call" then
    match message with
    | VStr s => Return (RM_telephony_transfer_call s)
    | _ => Raise telephony_phone_number
    end
  else Raise bad_response_type.

(** [def _response_message_creator(response_type, message, mode=None)]:
    the parameters as the source declares them (there is no [self]). *)
Definition _response_message_creator_sig : signature :=
  mk_signature "_response_message_creator"
    [("response_type", None); ("message", None); ("mode", Some VNone)].

(** [_response_message_creator]: the body ends after the chain, without a
    [return], so a call that does not raise evaluates to [None]. *)
Definition _response_message_creator (args : list pyval)
    (kwargs : list (string * pyval)) : outcome pyval :=
  obind (bind_args _response_message_creator_sig args kwargs) (fun e =>
  obind (response_message_of (get e "response_type") (get e "message")
           (get e "mode")) (fun response_message =>
  Return VNone)).

(** [self.proto_obj.messages.append(v)]: the list takes response messages
    only. *)
Definition messages_append (v : pyval) : method unit :=
  p <- get_proto_obj ;;
  match p, v with
  | VFulfillment f, VResponseMessage m =>
      set_proto_obj
        (VFulfillment
           (mk_Fulfillment (messages f ++ [m]) (webhook f)
              (return_partial_responses f) (tag f) (set_parameter_actions f)))
  | VFulfillment _, _ =>
      raise (mk_exc TypeError "messages takes ResponseMessage values only")
  | _, _ => raise (mk_exc AttributeError "no attribute 'messages'")
  end.

(** [add_response_message]: the creator is called as a method of [self],
    so [self] is its first positional argument. *)
Definition add_response_message (response_type message mode : pyval)
    : method pyval :=
  _check_fulfillment_exist ;;;
  p <- get_proto_obj ;;
  response_msg <-
    lift (_response_message_creator [VBuilder p]
            [("response_type", response_type); ("message", message);
             ("mode", mode)]) ;;
  messages_append response_msg ;;;
  get_proto_obj.

(** [self.proto_obj.set_parameter_actions.append(a)] *)
Definition set_parameter_actions_append (a : SetParameterAction)
    : method unit :=
  p <- get_proto_obj ;;
  match p with
  | VFulfillment f =>
      set_proto_obj
        (VFulfillment
           (mk_Fulfillment (messages f) (webhook f)
              (return_partial_responses f) (tag f)
              (set_parameter_actions f ++ [a])))
  | _ => raise (mk_exc AttributeError "no attribute 'set_parameter_actions'")
  end.

(** The [for] loop of [add_parameter_presets] over [parameter_map.items()]. *)
Fixpoint append_presets (items : list (pyval * pyval)) : method unit :=
  match items with
  | [] => ret tt
  | (parameter, value) :: items' =>
      a <- lift (new_SetParameterAction parameter value) ;;
      set_parameter_actions_append a ;;;
      append_presets items'
  end.

(** [add_parameter_presets] *)
Definition add_parameter_presets (parameter_map : pyval) : method pyval :=
  _check_fulfillment_exist ;;;
  match parameter_map with
  | VDict d =>
      raise_if
        (negb (forallb (fun kv => is_str (fst kv) && is_str (snd kv)) d))
        only_strings_in_map ;;;
      append_presets d ;;;
      get_proto_obj
  | _ => raise parameter_map_dict
  end.

(** [create_empty_fulfillment] *)
Definition create_empty_fulfillment
    (webhook tag return_partial_responses overwrite : pyval) : method pyval :=
  raise_if
    (truthy return_partial_responses && negb (is_bool return_partial_responses))
    return_partial_responses_bool ;;;
  raise_if
    ((truthy webhook && negb (is_str webhook)) ||
     (truthy tag && negb (is_str tag)))
    webhook_tag_string ;;;
  raise_if (truthy webhook && negb (truthy tag)) tag_required ;;;
  p <- get_proto_obj ;;
  raise_if (truthy p && negb (truthy overwrite)) already_contains ;;;
  p <- get_proto_obj ;;
  (if truthy overwrite || negb (truthy p) then
     f <- lift (new_Fulfillment webhook return_partial_responses tag) ;;
     set_proto_obj (VFulfillment f)
   else ret tt) ;;;
  get_proto_obj.

(** [add_conditional_case]: only the check; the method returns [None]. *)
Definition add_conditional_case : method pyval :=
  _check_fulfillment_exist ;;;
  ret VNone.

(** The operations of the class, for sequences of calls; [step] keeps the
    builder after the call, whether it returned or raised. *)
Inductive op : Type :=
| Load (obj overwrite : pyval)
| CreateEmpty (webhook tag return_partial_responses overwrite : pyval)
| AddResponseMessage (response_type message mode : pyval)
| AddParameterPresets (parameter_map : pyval)
| AddConditionalCase.

Definition step (o : op) (b : builder) : builder :=
  match o with
  | Load obj ow => snd (load_fulfillment obj ow b)
  | CreateEmpty w t r ow => snd (create_empty_fulfillment w t r ow b)
  | AddResponseMessage rt m mode => snd (add_response_message rt m mode b)
  | AddParameterPresets pm => snd (add_parameter_presets pm b)
  | AddConditionalCase => snd (add_conditional_case b)
  end.

Definition run (ops : list op) (b : builder) : builder :=
  fold_left (fun b o => step o b) ops b.

End FulfillmentBuilder.

(** ** TransitionRouteBuilder *)

Module TransitionRouteBuilder.

Definition no_proto_obj : pyexc :=
  mk_exc ValueError
    ("There is no proto_obj!" ++ LF ++ "Use create_empty_transition_route" ++
     " or load_transition_route to continue.").
Definition not_a_TransitionRoute_type : pyexc :=
  mk_exc ValueError
    ("proto_obj is not a TransitionRoute type." ++ LF ++
     "Please create or load the correct type to continue.").
Definition load_not_a_TransitionRoute : pyexc :=
  mk_exc ValueError
    "The object you're trying to load is not a TransitionRoute!".
Definition already_contains : pyexc :=
  mk_exc PyException
    ("proto_obj already contains a TransitionRoute." ++
     " If you wish to overwrite it, pass overwrite as True.").
Definition should_be_string : pyexc :=
  mk_exc ValueError
    ("intent, condition, target_page, and target_flow" ++
     " if existed should be a string.").
Definition trigger_fulfillment_type : pyexc :=
  mk_exc ValueError "trigger_fulfillment type should be a Fulfillment.".
Definition at_most_one_target : pyexc :=
  mk_exc PyException
    ("At most one of target_page and target_flow" ++
     " can be specified at the same time.").

(** [_check_transition_route_exist] *)
Definition _check_transition_route_exist : method unit :=
  p <- get_proto_obj ;;
  if negb (truthy p) then raise no_proto_obj
  else if negb (is_TransitionRoute p) then raise not_a_TransitionRoute_type
  else ret tt.

(** [load_transition_route] *)
Definition load_transition_route (obj overwrite : pyval) : method pyval :=
  raise_if (negb (is_TransitionRoute obj)) load_not_a_TransitionRoute ;;;
  p <- get_proto_obj ;;
  raise_if (truthy p && negb (truthy overwrite)) already_contains ;;;
  p <- get_proto_obj ;;
  (if truthy overwrite || negb (truthy p) then set_proto_obj obj else ret tt) ;;;
  get_proto_obj.

(** [__init__] *)
Definition __init__ (obj : pyval) : outcome unit * builder :=
  (set_proto_obj VNone ;;;
   if truthy obj then load_transition_route obj (VBool false) ;;; ret tt
   else ret tt) fresh.

(** [create_empty_transition_route] *)
Definition create_empty_transition_route
    (intent condition trigger_fulfillment target_page target_flow
       overwrite : pyval) : method pyval :=
  raise_if
    ((truthy intent && negb (is_str intent)) ||
     (truthy condition && negb (is_str condition)) ||
     (truthy target_page && negb (is_str target_page)) ||
     (truthy target_flow && negb (is_str target_flow)))
    should_be_string ;;;
  raise_if
    (truthy trigger_fulfillment && negb (is_Fulfillment trigger_fulfillment))
    trigger_fulfillment_type ;;;
  raise_if (truthy target_page && truthy target_flow) at_most_one_target ;;;
  p <- get_proto_obj ;;
  raise_if (truthy p && negb (truthy overwrite)) already_contains ;;;
  p <- get_proto_obj ;;
  (if truthy overwrite || negb (truthy p) then
     if negb (truthy trigger_fulfillment) then
       r <- lift (new_TransitionRoute intent condition
                    (VFulfillment empty_Fulfillment) target_page target_flow) ;;
       set_proto_obj (VTransitionRoute r)
     else
       r <- lift (new_TransitionRoute intent condition trigger_fulfillment
                    target_page target_flow) ;;
       set_proto_obj (VTransitionRoute r)
   else ret tt) ;;;
  get_proto_obj.

Inductive op : Type :=
| Load (obj overwrite : pyval)
| CreateEmpty (intent condition trigger_fulfillment target_page target_flow
                 overwrite : pyval).

Definition step (o : op) (b : builder) : builder :=
  match o with
  | Load obj ow => snd (load_transition_route obj ow b)
  | CreateEmpty i c f tp tf ow =>
      snd (create_empty_transition_route i c f tp tf ow b)
  end.

Definition run (ops : list op) (b : builder) : builder :=
  fold_left (fun b o => step o b) ops b.

End TransitionRouteBuilder.

(** ** EventHandlerBuilder *)

Module EventHandlerBuilder.

Definition no_proto_obj : pyexc :=
  mk_exc ValueError
    ("There is no proto_obj!" ++ LF ++ "Use create_empty_event_handler" ++
     " or load_event_handler to continue.").
Definition not_an_EventHandler_type : pyexc :=
  mk_exc ValueError
    ("proto_obj is not an EventHandler type." ++ LF ++
     "Please create or load the correct type to continue.").
Definition load_not_an_EventHandler : pyexc :=
  mk_exc ValueError
    "The object you're trying to load is not an EventHandler!".
Definition already_contains : pyexc :=
  mk_exc PyException
    ("proto_obj already contains an EventHandler." ++
     " If you wish to overwrite it, pass overwrite as True.").
Definition event_string : pyexc :=
  mk_exc ValueError "event should be a string.".
Definition trigger_fulfillment_type : pyexc :=
  mk_exc ValueError "trigger_fulfillment type should be a Fulfillment.".
Definition at_most_one_target : pyexc :=
  mk_exc PyException
    ("At most one of target_page and target_flow" ++
     " can be specified at the same time.").

(** [_check_event_handler_exist] *)
Definition _check_event_handler_exist : method unit :=
  p <- get_proto_obj ;;
  if negb (truthy p) then raise no_proto_obj
  else if negb (is_EventHandler p) then raise not_an_EventHandler_type
  else ret tt.

(** [load_event_handler] *)
Definition load_event_handler (obj overwrite : pyval) : method pyval :=
  raise_if (negb (is_EventHandler obj)) load_not_an_EventHandler ;;;
  p <- get_proto_obj ;;
  raise_if (truthy p && negb (truthy overwrite)) already_contains ;;;
  p <- get_proto_obj ;;
  (if truthy overwrite || negb (truthy p) then set_proto_obj obj else ret tt) ;;;
  get_proto_obj.

(** [__init__] *)
Definition __init__ (obj : pyval) : outcome unit * builder :=
  (set_proto_obj VNone ;;;
   if truthy obj then load_event_handler obj (VBool false) ;;; ret tt
   else ret tt) fresh.

(** [create_empty_event_handler] *)
Definition create_empty_event_handler
    (event trigger_fulfillment target_page target_flow overwrite : pyval)
    : method pyval :=
  raise_if (truthy event && negb (is_str event)) event_string ;;;
  raise_if
    (truthy trigger_fulfillment && negb (is_Fulfillment trigger_fulfillment))
    trigger_fulfillment_type ;;;
  raise_if (truthy target_page && truthy target_flow) at_most_one_target ;;;
  p <- get_proto_obj ;;
  raise_if (truthy p && negb (truthy overwrite)) already_contains ;;;
  p <- get_proto_obj ;;
  (if truthy overwrite || negb (truthy p) then
     h <- lift (new_EventHandler event trigger_fulfillment target_page
                  target_flow) ;;
     set_proto_obj (VEventHandler h)
   else ret tt) ;;;
  get_proto_obj.

Inductive op : Type :=
| Load (obj overwrite : pyval)
| CreateEmpty (event trigger_fulfillment target_page target_flow
                 overwrite : pyval).

Definition step (o : op) (b : builder) : builder :=
  match o with
  | Load obj ow => snd (load_event_handler obj ow b)
  | CreateEmpty e f tp tf ow => snd (create_empty_event_handler e f tp tf ow b)
  end.

Definition run (ops : list op) (b : builder) : builder :=
  fold_left (fun b o => step o b) ops b.

End EventHandlerBuilder.

(** ** Vocabulary of the properties *)

(** A Python [dict] whose keys and values are strings, its items in
    iteration order. *)
Definition dict_of_strings (items : list (string * string)) : pyval :=
  VDict (map (fun kv => (VStr (fst kv), VStr (snd kv))) items).

(** One preset pair per item. *)
Definition presets_of (items : list (string * string))
    : list SetParameterAction :=
  map (fun kv => mk_SetParameterAction (fst kv) (snd kv)) items.

(** The fulfillment [f] with presets added at the end of its list. *)
Definition with_presets (f : Fulfillment) (l : list SetParameterAction)
    : Fulfillment :=
  mk_Fulfillment (messages f) (webhook f) (return_partial_responses f)
    (tag f) (set_parameter_actions f ++ l).

(** An optional string argument: [None] or a string. *)
Definition opt_str (v : pyval) : bool :=
  match v with VNone | VStr _ => true | _ => false end.


(** The [TypeError] of a call of [_response_message_creator] that binds
    [response_type] twice. *)
Definition response_type_bound_twice : pyexc :=
  multiple_values "_response_message_creator" "response_type".

(** * Properties *)

(** ** Unfolding the method combinators *)

Ltac unfold_method :=
  unfold raise_if, lift, bind, ret, raise, get_proto_obj, set_proto_obj; cbn.

(** Case distinction on the truth values of the held object [p] and of
    [overwrite], which a method reads more than once. *)
Ltac gate p ow :=
  let Hp := fresh "Hp" in
  let How := fresh "How" in
  destruct (truthy p) eqn:Hp; destruct (truthy ow) eqn:How;
  cbn; rewrite ?Hp, ?How; cbn; try reflexivity.


(** Case distinction on every guard of a goal. *)
Ltac split_ifs :=
  repeat match goal with
         | |- context [if ?c then _ else _] => destruct c eqn:?
         end.

(** ** Sanity checks on concrete calls *)

Example create_then_presets :
  fst (bind (FulfillmentBuilder.create_empty_fulfillment
               (VStr "w") (VStr "t") (VBool false) (VBool false))
         (fun _ => FulfillmentBuilder.add_parameter_presets
                     (VDict [(VStr "a", VStr "1"); (VStr "b", VStr "2")]))
         fresh)
  = Return (VFulfillment
              (mk_Fulfillment [] "w" false "t"
                 [mk_SetParameterAction "a" "1"; mk_SetParameterAction "b" "2"])).
Proof. reflexivity. Qed.

Example creator_called_as_function :
  FulfillmentBuilder._response_message_creator
    [VStr "text"; VStr "hi"] [] = Return VNone.
Proof. reflexivity. Qed.

Example creator_called_as_method :
  FulfillmentBuilder._response_message_creator
    [VBuilder VNone]
    [("response_type", VStr "text"); ("message", VStr "hi"); ("mode", VNone)]
  = Raise (multiple_values "_response_message_creator" "response_type").
Proof. reflexivity. Qed.

Example webhook_without_tag :
  FulfillmentBuilder.create_empty_fulfillment
    (VStr "w") VNone (VBool false) (VBool false) fresh
  = (Raise FulfillmentBuilder.tag_required, fresh).
Proof. reflexivity. Qed.

Example event_handler_keeps_fulfillment_unset :
  EventHandlerBuilder.create_empty_event_handler
    (VStr "e") VNone VNone VNone (VBool false) fresh
  = (Return (VEventHandler (mk_EventHandler "e" None None)),
     mk_builder (VEventHandler (mk_EventHandler "e" None None))).
Proof. reflexivity. Qed.

(** ** The methods as case distinctions

    Each method below is rewritten as the sequence of its guards; the
    properties are proved from these equations. *)

Lemma check_fulfillment_eq (b : builder) :
  FulfillmentBuilder._check_fulfillment_exist b =
  if negb (truthy (proto_obj b)) then (Raise FulfillmentBuilder.no_proto_obj, b)
  else if negb (is_Fulfillment (proto_obj b))
       then (Raise FulfillmentBuilder.not_a_Fulfillment_type, b)
       else (Return tt, b).
Proof.
  destruct b as [p].
  unfold FulfillmentBuilder._check_fulfillment_exist. unfold_method.
  destruct (truthy p), (is_Fulfillment p); reflexivity.
Qed.

Lemma load_fulfillment_eq (obj ow : pyval) (b : builder) :
  FulfillmentBuilder.load_fulfillment obj ow b =
  if negb (is_Fulfillment obj)
  then (Raise FulfillmentBuilder.load_not_a_Fulfillment, b)
  else if truthy (proto_obj b) && negb (truthy ow)
       then (Raise FulfillmentBuilder.already_contains, b)
       else (Return obj, mk_builder obj).
Proof.
  destruct b as [p].
  unfold FulfillmentBuilder.load_fulfillment. unfold_method.
  destruct (is_Fulfillment obj); cbn; [ | reflexivity ].
  gate p ow.
Qed.

Lemma load_transition_route_eq (obj ow : pyval) (b : builder) :
  TransitionRouteBuilder.load_transition_route obj ow b =
  if negb (is_TransitionRoute obj)
  then (Raise TransitionRouteBuilder.load_not_a_TransitionRoute, b)
  else if truthy (proto_obj b) && negb (truthy ow)
       then (Raise TransitionRouteBuilder.already_contains, b)
       else (Return obj, mk_builder obj).
Proof.
  destruct b as [p].
  unfold TransitionRouteBuilder.load_transition_route. unfold_method.
  destruct (is_TransitionRoute obj); cbn; [ | reflexivity ].
  gate p ow.
Qed.

Lemma load_event_handler_eq (obj ow : pyval) (b : builder) :
  EventHandlerBuilder.load_event_handler obj ow b =
  if negb (is_EventHandler obj)
  then (Raise EventHandlerBuilder.load_not_an_EventHandler, b)
  else if truthy (proto_obj b) && negb (truthy ow)
       then (Raise EventHandlerBuilder.already_contains, b)
       else (Return obj, mk_builder obj).
Proof.
  destruct b as [p].
  unfold EventHandlerBuilder.load_event_handler. unfold_method.
  destruct (is_EventHandler obj); cbn; [ | reflexivity ].
  gate p ow.
Qed.

Lemma create_empty_fulfillment_eq (w t r ow : pyval) (b : builder) :
  FulfillmentBuilder.create_empty_fulfillment w t r ow b =
  if truthy r && negb (is_bool r)
  then (Raise FulfillmentBuilder.return_partial_responses_bool, b)
  else if (truthy w && negb (is_str w)) || (truthy t && negb (is_str t))
  then (Raise FulfillmentBuilder.webhook_tag_string, b)
  else if truthy w && negb (truthy t)
  then (Raise FulfillmentBuilder.tag_required, b)
  else if truthy (proto_obj b) && negb (truthy ow)
  then (Raise FulfillmentBuilder.already_contains, b)
  else match new_Fulfillment w r t with
       | Return f => (Return (VFulfillment f), mk_builder (VFulfillment f))
       | Raise e => (Raise e, b)
       end.
Proof.
  destruct b as [p].
  unfold FulfillmentBuilder.create_empty_fulfillment. unfold_method.
  destruct (truthy r && negb (is_bool r)); cbn; [ reflexivity | ].
  destruct ((truthy w && negb (is_str w)) || (truthy t && negb (is_str t)));
    cbn; [ reflexivity | ].
  destruct (truthy w && negb (truthy t)); cbn; [ reflexivity | ].
  gate p ow; destruct (new_Fulfillment w r t); reflexivity.
Qed.

Lemma create_empty_transition_route_eq (i c f tp tf ow : pyval) (b : builder) :
  TransitionRouteBuilder.create_empty_transition_route i c f tp tf ow b =
  if (truthy i && negb (is_str i)) || (truthy c && negb (is_str c)) ||
     (truthy tp && negb (is_str tp)) || (truthy tf && negb (is_str tf))
  then (Raise TransitionRouteBuilder.should_be_string, b)
  else if truthy f && negb (is_Fulfillment f)
  then (Raise TransitionRouteBuilder.trigger_fulfillment_type, b)
  else if truthy tp && truthy tf
  then (Raise TransitionRouteBuilder.at_most_one_target, b)
  else if truthy (proto_obj b) && negb (truthy ow)
  then (Raise TransitionRouteBuilder.already_contains, b)
  else match new_TransitionRoute i c
               (if truthy f then f else VFulfillment empty_Fulfillment) tp tf
       with
       | Return r => (Return (VTransitionRoute r),
                      mk_builder (VTransitionRoute r))
       | Raise e => (Raise e, b)
       end.
Proof.
  destruct b as [p].
  unfold TransitionRouteBuilder.create_empty_transition_route. unfold_method.
  destruct ((truthy i && negb (is_str i)) || (truthy c && negb (is_str c)) ||
            (truthy tp && negb (is_str tp)) || (truthy tf && negb (is_str tf)));
    cbn; [ reflexivity | ].
  destruct (truthy f && negb (is_Fulfillment f)); cbn; [ reflexivity | ].
  destruct (truthy tp && truthy tf); cbn; [ reflexivity | ].
  gate p ow; destruct (truthy f); cbn;
    match goal with
    | |- context [new_TransitionRoute ?a ?b ?c ?d ?e] =>
        destruct (new_TransitionRoute a b c d e); reflexivity
    end.
Qed.

Lemma create_empty_event_handler_eq (e f tp tf ow : pyval) (b : builder) :
  EventHandlerBuilder.create_empty_event_handler e f tp tf ow b =
  if truthy e && negb (is_str e)
  then (Raise EventHandlerBuilder.event_string, b)
  else if truthy f && negb (is_Fulfillment f)
  then (Raise EventHandlerBuilder.trigger_fulfillment_type, b)
  else if truthy tp && truthy tf
  then (Raise EventHandlerBuilder.at_most_one_target, b)
  else if truthy (proto_obj b) && negb (truthy ow)
  then (Raise EventHandlerBuilder.already_contains, b)
  else match new_EventHandler e f tp tf with
       | Return h => (Return (VEventHandler h), mk_builder (VEventHandler h))
       | Raise x => (Raise x, b)
       end.
Proof.
  destruct b as [p].
  unfold EventHandlerBuilder.create_empty_event_handler. unfold_method.
  destruct (truthy e && negb (is_str e)); cbn; [ reflexivity | ].
  destruct (truthy f && negb (is_Fulfillment f)); cbn; [ reflexivity | ].
  destruct (truthy tp && truthy tf); cbn; [ reflexivity | ].
  gate p ow; destruct (new_EventHandler e f tp tf); reflexivity.
Qed.

(** Called as a method, the creator receives [self] in [response_type],
    and the keyword [response_type] then has no parameter left to bind. *)
Lemma creator_as_method (self rt m mode : pyval) :
  FulfillmentBuilder._response_message_creator [self]
    [("response_type", rt); ("message", m); ("mode", mode)]
  = Raise response_type_bound_twice.
Proof. reflexivity. Qed.

(** Called as a plain function, the creator validates its arguments and
    returns [None]: the message it builds stays in a local variable. *)
Lemma creator_as_function (rt m mode : pyval) :
  FulfillmentBuilder._response_message_creator [rt; m; mode] [] =
  match FulfillmentBuilder.response_message_of rt m mode with
  | Return _ => Return VNone
  | Raise e => Raise e
  end.
Proof. reflexivity. Qed.

Lemma add_response_message_eq (rt m mode : pyval) (b : builder) :
  FulfillmentBuilder.add_response_message rt m mode b =
  if negb (truthy (proto_obj b)) then (Raise FulfillmentBuilder.no_proto_obj, b)
  else if negb (is_Fulfillment (proto_obj b))
       then (Raise FulfillmentBuilder.not_a_Fulfillment_type, b)
       else (Raise response_type_bound_twice, b).
Proof.
  unfold FulfillmentBuilder.add_response_message.
  unfold bind at 1. rewrite check_fulfillment_eq.
  destruct (negb (truthy (proto_obj b))); [ reflexivity | ].
  destruct (negb (is_Fulfillment (proto_obj b))); [ reflexivity | ].
  unfold bind, get_proto_obj, lift. rewrite creator_as_method. reflexivity.
Qed.

Lemma add_conditional_case_eq (b : builder) :
  FulfillmentBuilder.add_conditional_case b =
  if negb (truthy (proto_obj b)) then (Raise FulfillmentBuilder.no_proto_obj, b)
  else if negb (is_Fulfillment (proto_obj b))
       then (Raise FulfillmentBuilder.not_a_Fulfillment_type, b)
       else (Return VNone, b).
Proof.
  unfold FulfillmentBuilder.add_conditional_case.
  unfold bind. rewrite check_fulfillment_eq.
  destruct (negb (truthy (proto_obj b))); [ reflexivity | ].
  destruct (negb (is_Fulfillment (proto_obj b))); reflexivity.
Qed.

(** The loop of [add_parameter_presets] on string items: every item is
    appended, in order. *)
Lemma append_presets_strings (items : list (string * string)) :
  forall f : Fulfillment,
    FulfillmentBuilder.append_presets
      (map (fun kv => (VStr (fst kv), VStr (snd kv))) items)
      (mk_builder (VFulfillment f))
    = (Return tt, mk_builder (VFulfillment (with_presets f (presets_of items)))).
Proof.
  induction items as [ | [k v] items IH ]; intros f.
  - cbn. unfold with_presets. cbn. rewrite app_nil_r. destruct f; reflexivity.
  - cbn [map FulfillmentBuilder.append_presets fst snd].
    unfold FulfillmentBuilder.set_parameter_actions_append.
    unfold bind, lift, get_proto_obj, set_proto_obj in *.
    cbn [new_SetParameterAction str_field obind proto_obj].
    rewrite IH. unfold with_presets. cbn. rewrite <- app_assoc. reflexivity.
Qed.

Lemma forallb_strings (items : list (string * string)) :
  forallb (fun kv : pyval * pyval => is_str (fst kv) && is_str (snd kv))
    (map (fun kv => (VStr (fst kv), VStr (snd kv))) items) = true.
Proof. induction items as [ | kv items IH ]; cbn; auto. Qed.

(** The loop leaves the builder holding a fulfillment, also when the
    construction of a pair raises. *)
Lemma append_presets_keeps_Fulfillment (items : list (pyval * pyval)) :
  forall b : builder,
    is_Fulfillment (proto_obj b) = true ->
    is_Fulfillment (proto_obj (snd (FulfillmentBuilder.append_presets items b)))
    = true.
Proof.
  induction items as [ | [k v] items IH ]; intros [p] Hp.
  - exact Hp.
  - cbn [FulfillmentBuilder.append_presets].
    unfold FulfillmentBuilder.set_parameter_actions_append.
    unfold bind, lift, get_proto_obj, set_proto_obj in *.
    destruct (new_SetParameterAction k v) as [a | e]; [ | exact Hp ].
    cbn [proto_obj] in *. destruct p; try discriminate Hp.
    apply IH. reflexivity.
Qed.

(** [add_parameter_presets] with a mapping of strings to strings, on a
    builder whose held fulfillment passes the presence check. *)
Lemma add_parameter_presets_strings
    (f : Fulfillment) (items : list (string * string)) :
  bool_Fulfillment f = true ->
  FulfillmentBuilder.add_parameter_presets (dict_of_strings items)
    (mk_builder (VFulfillment f))
  = (Return (VFulfillment (with_presets f (presets_of items))),
     mk_builder (VFulfillment (with_presets f (presets_of items)))).
Proof.
  intros Hf. unfold FulfillmentBuilder.add_parameter_presets, dict_of_strings.
  unfold bind at 1. rewrite check_fulfillment_eq. cbn [proto_obj truthy].
  rewrite Hf. cbn [negb is_Fulfillment].
  rewrite forallb_strings. unfold raise_if. cbn [negb].
  unfold bind at 1. unfold ret at 1.
  unfold bind at 1. rewrite append_presets_strings. reflexivity.
Qed.

(** [add_parameter_presets] with an argument that is not a mapping of
    strings to strings raises a [ValueError] and changes nothing. *)
Lemma add_parameter_presets_invalid (f : Fulfillment) (pm : pyval) :
  bool_Fulfillment f = true ->
  (forall items, pm <> dict_of_strings items) ->
  exists e,
    FulfillmentBuilder.add_parameter_presets pm (mk_builder (VFulfillment f))
    = (Raise e, mk_builder (VFulfillment f)) /\
    (e = FulfillmentBuilder.parameter_map_dict \/
     e = FulfillmentBuilder.only_strings_in_map).
Proof.
  intros Hf Hpm. unfold FulfillmentBuilder.add_parameter_presets.
  unfold bind at 1. rewrite check_fulfillment_eq. cbn [proto_obj truthy].
  rewrite Hf. cbn [negb is_Fulfillment].
  destruct pm as [ | | | | | d | | | | | ];
    try (eexists; split; [ reflexivity | left; reflexivity ]).
  destruct (forallb (fun kv : pyval * pyval => is_str (fst kv) && is_str (snd kv)) d)
    eqn:Hall.
  - exfalso.
    assert (Hd : exists items, d = map (fun kv => (VStr (fst kv), VStr (snd kv))) items).
    { clear Hpm. induction d as [ | [k v] d IH ].
      - exists []. reflexivity.
      - cbn in Hall. apply andb_prop in Hall. destruct Hall as [Hkv Hd].
        apply andb_prop in Hkv. destruct Hkv as [Hk Hv].
        destruct k; try discriminate Hk. destruct v; try discriminate Hv.
        destruct (IH Hd) as [items ->].
        exists ((s, s0) :: items). reflexivity. }
    destruct Hd as [items ->]. apply (Hpm items). reflexivity.
  - exists FulfillmentBuilder.only_strings_in_map. split; [ | right; reflexivity ].
    unfold raise_if. cbn [negb]. reflexivity.
Qed.

(** The [if]/[elif] chain on ['output_audio_text']: the mode ['text'] sets
    the text sub-field, the mode ['ssml'] the markup sub-field, and any
    other mode, [None] included, raises the [ValueError] on the mode. *)
Lemma response_message_of_output_audio_text (s : string) (mode : pyval) :
  FulfillmentBuilder.response_message_of
    (VStr "output_audio_text") (VStr s) mode =
  if eq_str mode "text" then Return (RM_output_audio_text (OAT_text s))
  else if eq_str mode "ssml" then Return (RM_output_audio_text (OAT_ssml s))
  else Raise FulfillmentBuilder.bad_mode.
Proof. reflexivity. Qed.

(** ** Response messages *)

(** C1 (the code departs from the claim). On a builder that holds a
    non-empty fulfillment, [add_response_message] with the type ['text'] and
    a string, or a list of strings, does not append a text entry: the call of
    [_response_message_creator] through [self] raises a [TypeError], the
    builder is left as it was and nothing is returned. *)
Theorem add_response_message_text_raises
    (f : Fulfillment) (m : string) (l : list string) (mode : pyval) :
  bool_Fulfillment f = true ->
  FulfillmentBuilder.add_response_message (VStr "text") (VStr m) mode
    (mk_builder (VFulfillment f))
  = (Raise response_type_bound_twice, mk_builder (VFulfillment f)) /\
  FulfillmentBuilder.add_response_message (VStr "text") (VList (map VStr l)) mode
    (mk_builder (VFulfillment f))
  = (Raise response_type_bound_twice, mk_builder (VFulfillment f)) /\
  exc_type response_type_bound_twice = TypeError.
Proof.
  intros Hf. rewrite !add_response_message_eq. cbn [proto_obj truthy].
  rewrite Hf. repeat split; reflexivity.
Qed.

Lemma add_response_message_text_raises_witness :
  bool_Fulfillment (mk_Fulfillment [] "w" false "t" []) = true /\
  FulfillmentBuilder.add_response_message (VStr "text") (VStr "hi") VNone
    (mk_builder (VFulfillment (mk_Fulfillment [] "w" false "t" [])))
  = (Raise response_type_bound_twice,
     mk_builder (VFulfillment (mk_Fulfillment [] "w" false "t" []))).
Proof.
  split; [ reflexivity | ].
  apply (add_response_message_text_raises
           (mk_Fulfillment [] "w" false "t" []) "hi" ["a"; "b"] VNone).
  reflexivity.
Defined.

(** C3 (the code departs from the claim). On a builder that holds the
    fulfillment with webhook ["w"] and tag ["t"], [add_response_message]
    with the type ['output_audio_text'] and the message ["hello"] raises the
    same [TypeError] for the mode ['text'], for the mode ['ssml'] and without
    a mode: no entry is appended, and the error of a missing mode is not the
    [ValueError] on the mode. *)
Theorem add_response_message_output_audio_text_raises :
  let b := mk_builder (VFulfillment (mk_Fulfillment [] "w" false "t" [])) in
  FulfillmentBuilder.add_response_message
    (VStr "output_audio_text") (VStr "hello") (VStr "text") b
  = (Raise response_type_bound_twice, b) /\
  FulfillmentBuilder.add_response_message
    (VStr "output_audio_text") (VStr "hello") (VStr "ssml") b
  = (Raise response_type_bound_twice, b) /\
  FulfillmentBuilder.add_response_message
    (VStr "output_audio_text") (VStr "hello") VNone b
  = (Raise response_type_bound_twice, b) /\
  response_type_bound_twice <> FulfillmentBuilder.bad_mode.
Proof.
  cbv zeta. rewrite !add_response_message_eq. cbn [proto_obj].
  repeat split; try reflexivity. discriminate.
Qed.

(** ** Creating twice *)













(** ** The trigger fulfillment of a new transition route *)

(** C4. [create_empty_transition_route] without [trigger_fulfillment], on a
    builder that holds nothing (or nothing that is true), with [intent],
    [condition], [target_page] and [target_flow] each [None] or a string and
    not both targets given: the call returns the new transition route, the
    builder holds it, and its trigger fulfillment is present and is the empty
    fulfillment. *)
Theorem create_empty_transition_route_empty_fulfillment
    (i c tp tf ow : pyval) (b : builder) :
  truthy (proto_obj b) = false ->
  opt_str i = true -> opt_str c = true ->
  opt_str tp = true -> opt_str tf = true ->
  truthy tp && truthy tf = false ->
  exists r : TransitionRoute,
    TransitionRouteBuilder.create_empty_transition_route i c VNone tp tf ow b
    = (Return (VTransitionRoute r), mk_builder (VTransitionRoute r)) /\
    tr_trigger_fulfillment r = Some empty_Fulfillment.
Proof.
  intros Hb Hi Hc Htp Htf Hboth.
  rewrite create_empty_transition_route_eq. rewrite Hb, Hboth.
  assert (Hs : forall v, opt_str v = true -> truthy v && negb (is_str v) = false).
  { intros v Hv. destruct v; try discriminate Hv; cbn;
      [ reflexivity | apply andb_false_r ]. }
  rewrite (Hs i Hi), (Hs c Hc), (Hs tp Htp), (Hs tf Htf).
  cbn [orb andb truthy negb].
  destruct i; try discriminate Hi; destruct c; try discriminate Hc;
    destruct tp; try discriminate Htp; destruct tf; try discriminate Htf;
    cbn; eexists; split; reflexivity.
Qed.

Lemma create_empty_transition_route_empty_fulfillment_witness :
  exists r : TransitionRoute,
    TransitionRouteBuilder.create_empty_transition_route
      (VStr "i1") VNone VNone VNone VNone (VBool false) fresh
    = (Return (VTransitionRoute r), mk_builder (VTransitionRoute r)) /\
    tr_trigger_fulfillment r = Some empty_Fulfillment.
Proof.
  apply (create_empty_transition_route_empty_fulfillment
           (VStr "i1") VNone VNone VNone (VBool false) fresh);
    reflexivity.
Defined.

(** ** Two targets *)




(** ** Argument types of [create_empty_fulfillment] *)

(** C6, counterexample. [return_partial_responses=0] is given and is not a
    boolean, yet [create_empty_fulfillment] raises nothing: the guard skips
    a value that is false. *)
Lemma create_empty_fulfillment_types_counterexample :
  FulfillmentBuilder.create_empty_fulfillment
    VNone VNone (VInt 0) (VBool false) fresh
  = (Return (VFulfillment empty_Fulfillment),
     mk_builder (VFulfillment empty_Fulfillment)) /\
  is_bool (VInt 0) = false.
Proof. split; reflexivity. Qed.

(** C6, amended. Every call of [create_empty_fulfillment] in which
    [webhook] or [tag] is true but not a string, or
    [return_partial_responses] is true but not a boolean, raises the
    [ValueError] of the type check and leaves the builder as it was. *)
Theorem create_empty_fulfillment_types (w t r ow : pyval) (b : builder) :
  (truthy w = true /\ is_str w = false) \/
  (truthy t = true /\ is_str t = false) \/
  (truthy r = true /\ is_bool r = false) ->
  exists e,
    FulfillmentBuilder.create_empty_fulfillment w t r ow b = (Raise e, b) /\
    (e = FulfillmentBuilder.return_partial_responses_bool \/
     e = FulfillmentBuilder.webhook_tag_string) /\
    exc_type e = ValueError.
Proof.
  intros H. rewrite create_empty_fulfillment_eq.
  destruct (truthy r && negb (is_bool r)) eqn:Hr.
  - eexists. split; [ reflexivity | split; [ left | ]; reflexivity ].
  - destruct ((truthy w && negb (is_str w)) || (truthy t && negb (is_str t)))
      eqn:Hwt.
    + eexists. split; [ reflexivity | split; [ right | ]; reflexivity ].
    + exfalso. destruct H as [[H1 H2] | [[H1 H2] | [H1 H2]]];
        rewrite H1, H2 in *; cbn in *;
        try discriminate; rewrite ?orb_true_r in Hwt; discriminate.
Qed.

Lemma create_empty_fulfillment_types_witness :
  exists e,
    FulfillmentBuilder.create_empty_fulfillment
      (VInt 5) VNone (VBool false) (VBool false) fresh = (Raise e, fresh) /\
    (e = FulfillmentBuilder.return_partial_responses_bool \/
     e = FulfillmentBuilder.webhook_tag_string) /\
    exc_type e = ValueError.
Proof.
  apply (create_empty_fulfillment_types
           (VInt 5) VNone (VBool false) (VBool false) fresh).
  left. split; reflexivity.
Defined.

(** ** Parameter presets *)

(** C7 (the code departs from the claim). [create_empty_fulfillment()] with
    its defaults leaves the builder holding an empty fulfillment; on that
    builder [add_parameter_presets] with a mapping of strings to strings
    raises the [ValueError] of the presence check and appends nothing. *)
Theorem add_parameter_presets_after_create_empty :
  FulfillmentBuilder.create_empty_fulfillment
    VNone VNone (VBool false) (VBool false) fresh
  = (Return (VFulfillment empty_Fulfillment),
     mk_builder (VFulfillment empty_Fulfillment)) /\
  FulfillmentBuilder.add_parameter_presets
    (dict_of_strings [("a", "1"); ("b", "2")])
    (mk_builder (VFulfillment empty_Fulfillment))
  = (Raise FulfillmentBuilder.no_proto_obj,
     mk_builder (VFulfillment empty_Fulfillment)).
Proof. split; reflexivity. Qed.

(** On a held fulfillment that is not empty the method does what the
    claim says: two pairs for the mapping [{"a": "1", "b": "2"}], in order,
    and a [ValueError] for a value that is not a string. *)
Example add_parameter_presets_two :
  FulfillmentBuilder.add_parameter_presets
    (dict_of_strings [("a", "1"); ("b", "2")])
    (mk_builder (VFulfillment (mk_Fulfillment [] "w" false "t" [])))
  = (Return (VFulfillment
               (mk_Fulfillment [] "w" false "t"
                  [mk_SetParameterAction "a" "1"; mk_SetParameterAction "b" "2"])),
     mk_builder
       (VFulfillment
          (mk_Fulfillment [] "w" false "t"
             [mk_SetParameterAction "a" "1"; mk_SetParameterAction "b" "2"]))).
Proof. reflexivity. Qed.

Example add_parameter_presets_int_value :
  FulfillmentBuilder.add_parameter_presets (VDict [(VStr "a", VInt 1)])
    (mk_builder (VFulfillment (mk_Fulfillment [] "w" false "t" [])))
  = (Raise FulfillmentBuilder.only_strings_in_map,
     mk_builder (VFulfillment (mk_Fulfillment [] "w" false "t" []))).
Proof. reflexivity. Qed.

(** ** Loading *)

(** C8. For each of the three builders: loading a record of the builder's
    type into a builder that holds nothing (or nothing that is true) returns
    the record that was passed, and the builder then holds that same
    record. *)
Theorem load_returns_argument :
  (forall obj ow b,
      is_Fulfillment obj = true -> truthy (proto_obj b) = false ->
      FulfillmentBuilder.load_fulfillment obj ow b = (Return obj, mk_builder obj) /\
      proto_obj (snd (FulfillmentBuilder.load_fulfillment obj ow b)) = obj) /\
  (forall obj ow b,
      is_TransitionRoute obj = true -> truthy (proto_obj b) = false ->
      TransitionRouteBuilder.load_transition_route obj ow b
      = (Return obj, mk_builder obj) /\
      proto_obj (snd (TransitionRouteBuilder.load_transition_route obj ow b))
      = obj) /\
  (forall obj ow b,
      is_EventHandler obj = true -> truthy (proto_obj b) = false ->
      EventHandlerBuilder.load_event_handler obj ow b
      = (Return obj, mk_builder obj) /\
      proto_obj (snd (EventHandlerBuilder.load_event_handler obj ow b)) = obj).
Proof.
  split; [ | split ]; intros obj ow b Hobj Hb.
  - rewrite load_fulfillment_eq, Hobj, Hb. split; reflexivity.
  - rewrite load_transition_route_eq, Hobj, Hb. split; reflexivity.
  - rewrite load_event_handler_eq, Hobj, Hb. split; reflexivity.
Qed.

Lemma load_returns_argument_witness :
  FulfillmentBuilder.load_fulfillment
    (VFulfillment (mk_Fulfillment [RM_text ["hi"]] "w" false "t" []))
    (VBool false) fresh
  = (Return (VFulfillment (mk_Fulfillment [RM_text ["hi"]] "w" false "t" [])),
     mk_builder
       (VFulfillment (mk_Fulfillment [RM_text ["hi"]] "w" false "t" []))) /\
  TransitionRouteBuilder.load_transition_route
    (VTransitionRoute (mk_TransitionRoute "i1" "" None None))
    (VBool false) fresh
  = (Return (VTransitionRoute (mk_TransitionRoute "i1" "" None None)),
     mk_builder (VTransitionRoute (mk_TransitionRoute "i1" "" None None))) /\
  EventHandlerBuilder.load_event_handler
    (VEventHandler (mk_EventHandler "e" None None)) (VBool false) fresh
  = (Return (VEventHandler (mk_EventHandler "e" None None)),
     mk_builder (VEventHandler (mk_EventHandler "e" None None))).
Proof.
  destruct load_returns_argument as [HF [HT HE]].
  split; [ | split ].
  - apply (HF (VFulfillment (mk_Fulfillment [RM_text ["hi"]] "w" false "t" []))
              (VBool false) fresh); reflexivity.
  - apply (HT (VTransitionRoute (mk_TransitionRoute "i1" "" None None))
              (VBool false) fresh); reflexivity.
  - apply (HE (VEventHandler (mk_EventHandler "e" None None))
              (VBool false) fresh); reflexivity.
Defined.

(** ** The held record is never removed *)

Lemma step_fulfillment (o : FulfillmentBuilder.op) (b : builder) :
  is_Fulfillment (proto_obj b) = true ->
  is_Fulfillment (proto_obj (FulfillmentBuilder.step o b)) = true.
Proof.
  intros Hb. destruct o as [obj ow | w t r ow | rt m mode | pm | ];
    cbn [FulfillmentBuilder.step].
  - rewrite load_fulfillment_eq. split_ifs; cbn [snd proto_obj]; auto.
    destruct (is_Fulfillment obj); [ reflexivity | discriminate ].
  - rewrite create_empty_fulfillment_eq. split_ifs; cbn [snd proto_obj]; auto.
    destruct (new_Fulfillment w r t); cbn [snd proto_obj]; auto.
  - rewrite add_response_message_eq. split_ifs; exact Hb.
  - unfold FulfillmentBuilder.add_parameter_presets. unfold bind at 1.
    rewrite check_fulfillment_eq. split_ifs; try exact Hb.
    destruct pm; try exact Hb.
    unfold raise_if. unfold bind at 1.
    destruct (negb (forallb _ d)); [ exact Hb | ].
    unfold ret at 1. unfold bind, get_proto_obj.
    pose proof (append_presets_keeps_Fulfillment d b Hb) as Hk.
    destruct (FulfillmentBuilder.append_presets d b) as [[ [] | e ] b'];
      exact Hk.
  - rewrite add_conditional_case_eq. split_ifs; exact Hb.
Qed.

Lemma step_transition_route (o : TransitionRouteBuilder.op) (b : builder) :
  is_TransitionRoute (proto_obj b) = true ->
  is_TransitionRoute (proto_obj (TransitionRouteBuilder.step o b)) = true.
Proof.
  intros Hb. destruct o as [obj ow | i c f tp tf ow];
    cbn [TransitionRouteBuilder.step].
  - rewrite load_transition_route_eq. split_ifs; cbn [snd proto_obj]; auto.
    destruct (is_TransitionRoute obj); [ reflexivity | discriminate ].
  - rewrite create_empty_transition_route_eq.
    repeat match goal with
           | |- context [if ?c then (_, _) else _] => destruct c eqn:?
           end; cbn [snd proto_obj]; auto.
    match goal with
    | |- context [new_TransitionRoute ?a ?b ?c ?d ?e] =>
        destruct (new_TransitionRoute a b c d e)
    end; cbn [snd proto_obj]; auto.
Qed.

Lemma step_event_handler (o : EventHandlerBuilder.op) (b : builder) :
  is_EventHandler (proto_obj b) = true ->
  is_EventHandler (proto_obj (EventHandlerBuilder.step o b)) = true.
Proof.
  intros Hb. destruct o as [obj ow | e f tp tf ow];
    cbn [EventHandlerBuilder.step].
  - rewrite load_event_handler_eq. split_ifs; cbn [snd proto_obj]; auto.
    destruct (is_EventHandler obj); [ reflexivity | discriminate ].
  - rewrite create_empty_event_handler_eq. split_ifs; cbn [snd proto_obj]; auto.
    destruct (new_EventHandler e f tp tf); cbn [snd proto_obj]; auto.
Qed.

(** C9. For each of the three builders and every sequence of load, create
    and add calls with any arguments: a builder that holds a record of its
    type holds a record of its type after the whole sequence, whether the
    calls return or raise. No call takes the builder back to holding
    nothing. *)
Theorem held_record_is_kept :
  (forall ops b,
      is_Fulfillment (proto_obj b) = true ->
      is_Fulfillment (proto_obj (FulfillmentBuilder.run ops b)) = true) /\
  (forall ops b,
      is_TransitionRoute (proto_obj b) = true ->
      is_TransitionRoute (proto_obj (TransitionRouteBuilder.run ops b)) = true) /\
  (forall ops b,
      is_EventHandler (proto_obj b) = true ->
      is_EventHandler (proto_obj (EventHandlerBuilder.run ops b)) = true).
Proof.
  split; [ | split ]; intros ops; induction ops as [ | o ops IH ];
    intros b Hb; try exact Hb.
  - apply IH. apply step_fulfillment. exact Hb.
  - apply IH. apply step_transition_route. exact Hb.
  - apply IH. apply step_event_handler. exact Hb.
Qed.

Lemma held_record_is_kept_witness :
  is_Fulfillment
    (proto_obj
       (FulfillmentBuilder.run
          [FulfillmentBuilder.AddResponseMessage (VStr "text") (VStr "hi") VNone;
           FulfillmentBuilder.AddParameterPresets (dict_of_strings [("a", "1")]);
           FulfillmentBuilder.Load (VInt 3) (VBool true);
           FulfillmentBuilder.CreateEmpty VNone VNone (VBool false) (VBool true);
           FulfillmentBuilder.AddConditionalCase]
          (mk_builder (VFulfillment (mk_Fulfillment [] "w" false "t" [])))))
  = true.
Proof.
  apply (proj1 held_record_is_kept). reflexivity.
Defined.

(** ** Presence by truth value *)

(** C10. [create_empty_fulfillment()] with its defaults leaves the builder
    holding an empty fulfillment, which is false. On such a builder
    [add_response_message] and [add_parameter_presets] raise the
    [ValueError] that says there is no held object, whatever their
    arguments; [load_fulfillment] without [overwrite] replaces the empty
    record by the loaded one; and [create_empty_fulfillment] without
    [overwrite] never raises the exception on a record already held: it does
    what it does on a new builder, replacing the empty record when its
    arguments are valid. *)
Theorem presence_is_truth_value :
  let b := mk_builder (VFulfillment empty_Fulfillment) in
  FulfillmentBuilder.create_empty_fulfillment
    VNone VNone (VBool false) (VBool false) fresh
  = (Return (VFulfillment empty_Fulfillment), b) /\
  truthy (proto_obj b) = false /\
  (forall rt m mode,
      FulfillmentBuilder.add_response_message rt m mode b
      = (Raise FulfillmentBuilder.no_proto_obj, b)) /\
  (forall pm,
      FulfillmentBuilder.add_parameter_presets pm b
      = (Raise FulfillmentBuilder.no_proto_obj, b)) /\
  (forall g,
      FulfillmentBuilder.load_fulfillment (VFulfillment g) (VBool false) b
      = (Return (VFulfillment g), mk_builder (VFulfillment g))) /\
  (forall w t r,
      FulfillmentBuilder.create_empty_fulfillment w t r (VBool false) b
      = match FulfillmentBuilder.create_empty_fulfillment
                w t r (VBool false) fresh with
        | (Return v, b') => (Return v, b')
        | (Raise e, _) => (Raise e, b)
        end /\
      fst (FulfillmentBuilder.create_empty_fulfillment w t r (VBool false) b)
      <> Raise FulfillmentBuilder.already_contains) /\
  FulfillmentBuilder.create_empty_fulfillment
    (VStr "w") (VStr "t") (VBool false) (VBool false) b
  = (Return (VFulfillment (mk_Fulfillment [] "w" false "t" [])),
     mk_builder (VFulfillment (mk_Fulfillment [] "w" false "t" []))).
Proof.
  cbv zeta.
  split; [ reflexivity | ]. split; [ reflexivity | ].
  split; [ intros rt m mode; rewrite add_response_message_eq; reflexivity | ].
  split.
  { intros pm. unfold FulfillmentBuilder.add_parameter_presets.
    unfold bind at 1. rewrite check_fulfillment_eq. reflexivity. }
  split; [ intros g; rewrite load_fulfillment_eq; reflexivity | ].
  split; [ | reflexivity ].
  intros w t r. rewrite !create_empty_fulfillment_eq.
  cbn [proto_obj fresh truthy].
  change (bool_Fulfillment empty_Fulfillment) with false. cbn [andb].
  split.
  - split_ifs; try reflexivity.
    destruct (new_Fulfillment w r t); reflexivity.
  - split_ifs; cbn [fst]; try discriminate.
    destruct (new_Fulfillment w r t) as [f | e] eqn:Hnew; cbn [fst];
      try discriminate.
    unfold new_Fulfillment, obind, str_field, bool_field in Hnew.
    destruct w, r, t; try discriminate Hnew;
      inversion Hnew; discriminate.
Qed.

(** * Further properties of the builders *)

(** ** Loading and constructing *)

(** X1. A load of an object that is not of the builder's type raises the
    [ValueError] on the type, whatever [overwrite] is and whatever the
    builder holds: the type check comes before the gate on the held object.
    The builder is left as it was. *)
Theorem load_rejects_wrong_type :
  (forall obj ow b,
      is_Fulfillment obj = false ->
      FulfillmentBuilder.load_fulfillment obj ow b
      = (Raise FulfillmentBuilder.load_not_a_Fulfillment, b)) /\
  (forall obj ow b,
      is_TransitionRoute obj = false ->
      TransitionRouteBuilder.load_transition_route obj ow b
      = (Raise TransitionRouteBuilder.load_not_a_TransitionRoute, b)) /\
  (forall obj ow b,
      is_EventHandler obj = false ->
      EventHandlerBuilder.load_event_handler obj ow b
      = (Raise EventHandlerBuilder.load_not_an_EventHandler, b)).
Proof.
  split; [ | split ]; intros obj ow b Hobj.
  - rewrite load_fulfillment_eq, Hobj. reflexivity.
  - rewrite load_transition_route_eq, Hobj. reflexivity.
  - rewrite load_event_handler_eq, Hobj. reflexivity.
Qed.

Lemma load_rejects_wrong_type_witness :
  FulfillmentBuilder.load_fulfillment
    (VTransitionRoute (mk_TransitionRoute "i" "" None None)) (VBool true)
    (mk_builder (VFulfillment (mk_Fulfillment [] "w" false "t" [])))
  = (Raise FulfillmentBuilder.load_not_a_Fulfillment,
     mk_builder (VFulfillment (mk_Fulfillment [] "w" false "t" []))) /\
  TransitionRouteBuilder.load_transition_route (VStr "route") (VBool false) fresh
  = (Raise TransitionRouteBuilder.load_not_a_TransitionRoute, fresh) /\
  EventHandlerBuilder.load_event_handler VNone (VBool false) fresh
  = (Raise EventHandlerBuilder.load_not_an_EventHandler, fresh).
Proof.
  destruct load_rejects_wrong_type as [HF [HT HE]].
  split; [ | split ].
  - apply HF. reflexivity.
  - apply HT. reflexivity.
  - apply HE. reflexivity.
Defined.

(** X2. A load of an object of the builder's type into a builder whose
    held object is true: when [overwrite] is false the call raises the
    exception on the record already held, of class [Exception], and keeps
    the held object; when [overwrite] is true, by its truth value, the call
    returns the loaded object and the builder holds it. *)
Theorem load_on_loaded_builder :
  (forall obj ow b,
      is_Fulfillment obj = true -> truthy (proto_obj b) = true ->
      FulfillmentBuilder.load_fulfillment obj ow b
      = if truthy ow then (Return obj, mk_builder obj)
        else (Raise FulfillmentBuilder.already_contains, b)) /\
  (forall obj ow b,
      is_TransitionRoute obj = true -> truthy (proto_obj b) = true ->
      TransitionRouteBuilder.load_transition_route obj ow b
      = if truthy ow then (Return obj, mk_builder obj)
        else (Raise TransitionRouteBuilder.already_contains, b)) /\
  (forall obj ow b,
      is_EventHandler obj = true -> truthy (proto_obj b) = true ->
      EventHandlerBuilder.load_event_handler obj ow b
      = if truthy ow then (Return obj, mk_builder obj)
        else (Raise EventHandlerBuilder.already_contains, b)) /\
  exc_type FulfillmentBuilder.already_contains = PyException /\
  exc_type TransitionRouteBuilder.already_contains = PyException /\
  exc_type EventHandlerBuilder.already_contains = PyException.
Proof.
  split; [ | split; [ | split ] ];
    try (intros obj ow b Hobj Hb).
  - rewrite load_fulfillment_eq, Hobj, Hb. destruct (truthy ow); reflexivity.
  - rewrite load_transition_route_eq, Hobj, Hb.
    destruct (truthy ow); reflexivity.
  - rewrite load_event_handler_eq, Hobj, Hb. destruct (truthy ow); reflexivity.
  - repeat split.
Qed.

Lemma load_on_loaded_builder_witness :
  FulfillmentBuilder.load_fulfillment
    (VFulfillment (mk_Fulfillment [] "w2" false "t2" [])) (VBool false)
    (mk_builder (VFulfillment (mk_Fulfillment [] "w" false "t" [])))
  = (Raise FulfillmentBuilder.already_contains,
     mk_builder (VFulfillment (mk_Fulfillment [] "w" false "t" []))) /\
  FulfillmentBuilder.load_fulfillment
    (VFulfillment (mk_Fulfillment [] "w2" false "t2" [])) (VInt 1)
    (mk_builder (VFulfillment (mk_Fulfillment [] "w" false "t" [])))
  = (Return (VFulfillment (mk_Fulfillment [] "w2" false "t2" [])),
     mk_builder (VFulfillment (mk_Fulfillment [] "w2" false "t2" []))).
Proof.
  destruct load_on_loaded_builder as [HF _].
  split.
  - apply (HF (VFulfillment (mk_Fulfillment [] "w2" false "t2" []))
              (VBool false)
              (mk_builder (VFulfillment (mk_Fulfillment [] "w" false "t" []))));
      reflexivity.
  - apply (HF (VFulfillment (mk_Fulfillment [] "w2" false "t2" []))
              (VInt 1)
              (mk_builder (VFulfillment (mk_Fulfillment [] "w" false "t" []))));
      reflexivity.
Defined.

(** X3. The constructors: an argument that is false ([None], but also an
    empty record) leaves the new builder holding nothing; an argument that
    is true and of the builder's type is held as it is; any other true
    argument makes the constructor raise the [ValueError] on the type. No
    constructor raises the exception on a record already held. *)
Theorem init_outcome (obj : pyval) :
  FulfillmentBuilder.__init__ obj
  = (if truthy obj
     then if is_Fulfillment obj then (Return tt, mk_builder obj)
          else (Raise FulfillmentBuilder.load_not_a_Fulfillment, fresh)
     else (Return tt, fresh)) /\
  TransitionRouteBuilder.__init__ obj
  = (if truthy obj
     then if is_TransitionRoute obj then (Return tt, mk_builder obj)
          else (Raise TransitionRouteBuilder.load_not_a_TransitionRoute, fresh)
     else (Return tt, fresh)) /\
  EventHandlerBuilder.__init__ obj
  = (if truthy obj
     then if is_EventHandler obj then (Return tt, mk_builder obj)
          else (Raise EventHandlerBuilder.load_not_an_EventHandler, fresh)
     else (Return tt, fresh)).
Proof.
  unfold FulfillmentBuilder.__init__, TransitionRouteBuilder.__init__,
    EventHandlerBuilder.__init__.
  unfold bind, set_proto_obj, ret.
  destruct (truthy obj); [ | repeat split ].
  rewrite load_fulfillment_eq, load_transition_route_eq, load_event_handler_eq.
  cbn [proto_obj truthy andb].
  destruct (is_Fulfillment obj), (is_TransitionRoute obj),
    (is_EventHandler obj); repeat split.
Qed.

(** ** The add methods *)

(** X5. On a builder whose held object is false ([None] as after the
    constructor, or an empty record), the three add methods raise the
    [ValueError] that says there is no held object, whatever their
    arguments, valid or not, and leave the builder as it was. *)
Theorem add_methods_need_held_object (b : builder) :
  truthy (proto_obj b) = false ->
  (forall rt m mode,
      FulfillmentBuilder.add_response_message rt m mode b
      = (Raise FulfillmentBuilder.no_proto_obj, b)) /\
  (forall pm,
      FulfillmentBuilder.add_parameter_presets pm b
      = (Raise FulfillmentBuilder.no_proto_obj, b)) /\
  FulfillmentBuilder.add_conditional_case b
  = (Raise FulfillmentBuilder.no_proto_obj, b).
Proof.
  intros Hb. split; [ | split ].
  - intros rt m mode. rewrite add_response_message_eq, Hb. reflexivity.
  - intros pm. unfold FulfillmentBuilder.add_parameter_presets.
    unfold bind at 1. rewrite check_fulfillment_eq, Hb. reflexivity.
  - rewrite add_conditional_case_eq, Hb. reflexivity.
Qed.

Lemma add_methods_need_held_object_witness :
  FulfillmentBuilder.add_parameter_presets (VInt 3) fresh
  = (Raise FulfillmentBuilder.no_proto_obj, fresh).
Proof.
  apply (add_methods_need_held_object fresh). reflexivity.
Defined.

(** X6. [add_response_message] never returns and never changes the
    builder: for every response type, message and mode, and whatever the
    builder holds, the call raises. *)
Theorem add_response_message_always_raises (rt m mode : pyval) (b : builder) :
  exists e,
    FulfillmentBuilder.add_response_message rt m mode b = (Raise e, b) /\
    (e = FulfillmentBuilder.no_proto_obj \/
     e = FulfillmentBuilder.not_a_Fulfillment_type \/
     e = response_type_bound_twice).
Proof.
  rewrite add_response_message_eq.
  destruct (negb (truthy (proto_obj b)));
    [ eexists; split; [ reflexivity | auto ] | ].
  destruct (negb (is_Fulfillment (proto_obj b)));
    eexists; (split; [ reflexivity | auto ]).
Qed.

(** A dictionary that passes the test of [add_parameter_presets] on its
    keys and values is a mapping of strings to strings. *)
Lemma all_strings_items (d : list (pyval * pyval)) :
  forallb (fun kv : pyval * pyval => is_str (fst kv) && is_str (snd kv)) d
  = true ->
  exists items, d = map (fun kv => (VStr (fst kv), VStr (snd kv))) items.
Proof.
  induction d as [ | [k v] d IH ]; intros Hall.
  - exists []. reflexivity.
  - cbn in Hall. apply andb_prop in Hall. destruct Hall as [Hkv Hd].
    apply andb_prop in Hkv. destruct Hkv as [Hk Hv].
    destruct k; try discriminate Hk. destruct v; try discriminate Hv.
    destruct (IH Hd) as [items ->].
    exists ((s, s0) :: items). reflexivity.
Qed.

Lemma with_presets_true (f : Fulfillment) (l : list SetParameterAction) :
  bool_Fulfillment f = true -> bool_Fulfillment (with_presets f l) = true.
Proof.
  unfold bool_Fulfillment, with_presets. cbn.
  destruct (messages f), (webhook f), (return_partial_responses f), (tag f),
    (set_parameter_actions f); cbn; auto; discriminate.
Qed.

Lemma with_presets_app (f : Fulfillment) (l1 l2 : list SetParameterAction) :
  with_presets (with_presets f l1) l2 = with_presets f (l1 ++ l2).
Proof. unfold with_presets. cbn. rewrite app_assoc. reflexivity. Qed.

(** X7. On a builder that holds a fulfillment which is not empty,
    [add_parameter_presets] with a mapping of strings to strings returns the
    held fulfillment, whose preset list is the former list followed by one
    pair per item, in the order of the items; the other fields of the
    record are untouched. *)
Theorem add_parameter_presets_appends
    (f : Fulfillment) (items : list (string * string)) :
  bool_Fulfillment f = true ->
  exists f',
    FulfillmentBuilder.add_parameter_presets (dict_of_strings items)
      (mk_builder (VFulfillment f))
    = (Return (VFulfillment f'), mk_builder (VFulfillment f')) /\
    set_parameter_actions f'
    = (set_parameter_actions f ++ presets_of items)%list /\
    length (set_parameter_actions f')
    = length (set_parameter_actions f) + length items /\
    messages f' = messages f /\ webhook f' = webhook f /\
    tag f' = tag f /\
    return_partial_responses f' = return_partial_responses f.
Proof.
  intros Hf. exists (with_presets f (presets_of items)).
  split; [ apply add_parameter_presets_strings; exact Hf | ].
  unfold with_presets, presets_of. cbn.
  rewrite length_app, length_map. repeat split.
Qed.

Lemma add_parameter_presets_appends_witness :
  exists f',
    FulfillmentBuilder.add_parameter_presets
      (dict_of_strings [("a", "1"); ("b", "2")])
      (mk_builder
         (VFulfillment
            (mk_Fulfillment [] "w" false "t" [mk_SetParameterAction "z" "0"])))
    = (Return (VFulfillment f'), mk_builder (VFulfillment f')) /\
    set_parameter_actions f'
    = [mk_SetParameterAction "z" "0"; mk_SetParameterAction "a" "1";
       mk_SetParameterAction "b" "2"].
Proof.
  destruct (add_parameter_presets_appends
              (mk_Fulfillment [] "w" false "t" [mk_SetParameterAction "z" "0"])
              [("a", "1"); ("b", "2")] eq_refl) as [f' [Hcall [Hset _]]].
  exists f'. split; [ exact Hcall | exact Hset ].
Defined.

(** X8. On a builder that holds a fulfillment which is not empty,
    [add_parameter_presets] raises a [ValueError] and changes nothing when
    its argument is not a dictionary, and when it is a dictionary with a key
    or a value that is not a string: one bad entry rejects the whole
    mapping, also the entries before it. *)
Theorem add_parameter_presets_rejects (f : Fulfillment) :
  bool_Fulfillment f = true ->
  (forall pm,
      is_dict pm = false ->
      FulfillmentBuilder.add_parameter_presets pm (mk_builder (VFulfillment f))
      = (Raise FulfillmentBuilder.parameter_map_dict,
         mk_builder (VFulfillment f))) /\
  (forall d1 k v d2,
      is_str k && is_str v = false ->
      FulfillmentBuilder.add_parameter_presets (VDict (d1 ++ (k, v) :: d2))
        (mk_builder (VFulfillment f))
      = (Raise FulfillmentBuilder.only_strings_in_map,
         mk_builder (VFulfillment f))).
Proof.
  intros Hf. split.
  - intros pm Hpm. unfold FulfillmentBuilder.add_parameter_presets.
    unfold bind at 1. rewrite check_fulfillment_eq. cbn [proto_obj truthy].
    rewrite Hf. cbn [negb is_Fulfillment].
    destruct pm; try discriminate Hpm; reflexivity.
  - intros d1 k v d2 Hkv. unfold FulfillmentBuilder.add_parameter_presets.
    unfold bind at 1. rewrite check_fulfillment_eq. cbn [proto_obj truthy].
    rewrite Hf. cbn [negb is_Fulfillment].
    rewrite forallb_app. cbn [forallb fst snd]. rewrite Hkv.
    rewrite andb_false_r. reflexivity.
Qed.

Lemma add_parameter_presets_rejects_witness :
  FulfillmentBuilder.add_parameter_presets
    (VDict [(VStr "a", VStr "1"); (VStr "b", VInt 2)])
    (mk_builder (VFulfillment (mk_Fulfillment [] "w" false "t" [])))
  = (Raise FulfillmentBuilder.only_strings_in_map,
     mk_builder (VFulfillment (mk_Fulfillment [] "w" false "t" []))) /\
  FulfillmentBuilder.add_parameter_presets (VList [VStr "a"])
    (mk_builder (VFulfillment (mk_Fulfillment [] "w" false "t" [])))
  = (Raise FulfillmentBuilder.parameter_map_dict,
     mk_builder (VFulfillment (mk_Fulfillment [] "w" false "t" []))).
Proof.
  destruct (add_parameter_presets_rejects
              (mk_Fulfillment [] "w" false "t" []) eq_refl) as [Hnd Hd].
  split.
  - apply (Hd [(VStr "a", VStr "1")] (VStr "b") (VInt 2) []). reflexivity.
  - apply Hnd. reflexivity.
Defined.

(** X9. Two calls of [add_parameter_presets] in a row, on a held
    fulfillment that is not empty, leave the same record as one call with
    the items of the first mapping followed by those of the second; a call
    with the empty mapping changes nothing. *)
Theorem add_parameter_presets_twice
    (f : Fulfillment) (items1 items2 : list (string * string)) :
  bool_Fulfillment f = true ->
  bind (FulfillmentBuilder.add_parameter_presets (dict_of_strings items1))
    (fun _ => FulfillmentBuilder.add_parameter_presets (dict_of_strings items2))
    (mk_builder (VFulfillment f))
  = FulfillmentBuilder.add_parameter_presets
      (dict_of_strings (items1 ++ items2)%list)
      (mk_builder (VFulfillment f)) /\
  FulfillmentBuilder.add_parameter_presets (dict_of_strings [])
    (mk_builder (VFulfillment f))
  = (Return (VFulfillment f), mk_builder (VFulfillment f)).
Proof.
  intros Hf. split.
  - unfold bind. rewrite (add_parameter_presets_strings f items1 Hf).
    rewrite (add_parameter_presets_strings _ items2
               (with_presets_true f (presets_of items1) Hf)).
    rewrite (add_parameter_presets_strings f (items1 ++ items2)%list Hf).
    rewrite with_presets_app. unfold presets_of. rewrite map_app. reflexivity.
  - rewrite (add_parameter_presets_strings f [] Hf).
    unfold with_presets, presets_of. cbn. rewrite app_nil_r.
    destruct f; reflexivity.
Qed.

Lemma add_parameter_presets_twice_witness :
  bind (FulfillmentBuilder.add_parameter_presets (dict_of_strings [("a", "1")]))
    (fun _ =>
       FulfillmentBuilder.add_parameter_presets (dict_of_strings [("b", "2")]))
    (mk_builder (VFulfillment (mk_Fulfillment [] "w" false "t" [])))
  = FulfillmentBuilder.add_parameter_presets
      (dict_of_strings [("a", "1"); ("b", "2")])
      (mk_builder (VFulfillment (mk_Fulfillment [] "w" false "t" []))).
Proof.
  apply (add_parameter_presets_twice (mk_Fulfillment [] "w" false "t" [])
           [("a", "1")] [("b", "2")]).
  reflexivity.
Defined.

(** ** Calls that raise *)

(** Once the test on keys and values has passed, the loop of
    [add_parameter_presets] does not raise. *)
Lemma append_presets_returns (d : list (pyval * pyval)) (f : Fulfillment) :
  forallb (fun kv : pyval * pyval => is_str (fst kv) && is_str (snd kv)) d
  = true ->
  exists b',
    FulfillmentBuilder.append_presets d (mk_builder (VFulfillment f))
    = (Return tt, b').
Proof.
  intros Hall. destruct (all_strings_items d Hall) as [items ->].
  rewrite append_presets_strings. eexists. reflexivity.
Qed.

(** X4. No method updates the builder and then raises: whenever a call of
    a load, create or add method of one of the three builders raises, the
    builder is what it was before the call. In particular
    [add_parameter_presets] appends either every pair or none. *)
Theorem raise_leaves_builder (b b' : builder) (e : pyexc) :
  (forall obj ow,
      FulfillmentBuilder.load_fulfillment obj ow b = (Raise e, b') -> b' = b) /\
  (forall w t r ow,
      FulfillmentBuilder.create_empty_fulfillment w t r ow b = (Raise e, b') ->
      b' = b) /\
  (forall rt m mode,
      FulfillmentBuilder.add_response_message rt m mode b = (Raise e, b') ->
      b' = b) /\
  (forall pm,
      FulfillmentBuilder.add_parameter_presets pm b = (Raise e, b') -> b' = b) /\
  (FulfillmentBuilder.add_conditional_case b = (Raise e, b') -> b' = b) /\
  (forall obj ow,
      TransitionRouteBuilder.load_transition_route obj ow b = (Raise e, b') ->
      b' = b) /\
  (forall i c f tp tf ow,
      TransitionRouteBuilder.create_empty_transition_route i c f tp tf ow b
      = (Raise e, b') -> b' = b) /\
  (forall obj ow,
      EventHandlerBuilder.load_event_handler obj ow b = (Raise e, b') ->
      b' = b) /\
  (forall ev f tp tf ow,
      EventHandlerBuilder.create_empty_event_handler ev f tp tf ow b
      = (Raise e, b') -> b' = b).
Proof.
  repeat match goal with |- _ /\ _ => split end.
  - intros obj ow. rewrite load_fulfillment_eq.
    split_ifs; intros H; inversion H; reflexivity.
  - intros w t r ow. rewrite create_empty_fulfillment_eq.
    split_ifs; try (intros H; inversion H; reflexivity).
    destruct (new_Fulfillment w r t); intros H; inversion H; reflexivity.
  - intros rt m mode. rewrite add_response_message_eq.
    split_ifs; intros H; inversion H; reflexivity.
  - intros pm. unfold FulfillmentBuilder.add_parameter_presets.
    unfold bind at 1. rewrite check_fulfillment_eq.
    destruct (negb (truthy (proto_obj b)));
      [ intros H; inversion H; reflexivity | ].
    destruct (negb (is_Fulfillment (proto_obj b))) eqn:Hrec;
      [ intros H; inversion H; reflexivity | ].
    destruct pm; try (intros H; inversion H; reflexivity).
    unfold raise_if. unfold bind at 1.
    destruct (forallb (fun kv : pyval * pyval => is_str (fst kv) && is_str (snd kv)) d)
      eqn:Hall; cbn [negb];
      [ | intros H; inversion H; reflexivity ].
    unfold ret at 1. unfold bind, get_proto_obj.
    destruct b as [p]. cbn [proto_obj] in Hrec.
    destruct p; try discriminate Hrec.
    destruct (append_presets_returns d f Hall) as [b1 ->].
    intros H. discriminate H.
  - rewrite add_conditional_case_eq.
    split_ifs; intros H; inversion H; reflexivity.
  - intros obj ow. rewrite load_transition_route_eq.
    split_ifs; intros H; inversion H; reflexivity.
  - intros i c f tp tf ow. rewrite create_empty_transition_route_eq.
    repeat match goal with
           | |- context [if ?c then (_, _) else _] => destruct c eqn:?
           end; try (intros H; inversion H; reflexivity).
    match goal with
    | |- context [new_TransitionRoute ?a ?b ?c ?d ?e] =>
        destruct (new_TransitionRoute a b c d e)
    end; intros H; inversion H; reflexivity.
  - intros obj ow. rewrite load_event_handler_eq.
    split_ifs; intros H; inversion H; reflexivity.
  - intros ev f tp tf ow. rewrite create_empty_event_handler_eq.
    split_ifs; try (intros H; inversion H; reflexivity).
    destruct (new_EventHandler ev f tp tf); intros H; inversion H; reflexivity.
Qed.

Lemma raise_leaves_builder_witness :
  FulfillmentBuilder.add_parameter_presets
    (VDict [(VStr "a", VStr "1"); (VStr "b", VInt 2)])
    (mk_builder (VFulfillment (mk_Fulfillment [] "w" false "t" [])))
  = (Raise FulfillmentBuilder.only_strings_in_map,
     mk_builder (VFulfillment (mk_Fulfillment [] "w" false "t" []))) /\
  mk_builder (VFulfillment (mk_Fulfillment [] "w" false "t" []))
  = mk_builder (VFulfillment (mk_Fulfillment [] "w" false "t" [])).
Proof.
  split; [ reflexivity | ].
  apply (proj1 (proj2 (proj2 (proj2
           (raise_leaves_builder
              (mk_builder (VFulfillment (mk_Fulfillment [] "w" false "t" [])))
              (mk_builder (VFulfillment (mk_Fulfillment [] "w" false "t" [])))
              FulfillmentBuilder.only_strings_in_map))))
           (VDict [(VStr "a", VStr "1"); (VStr "b", VInt 2)])).
  reflexivity.
Defined.

(** ** What a builder can hold *)

Lemma step_fulfillment_from_none (o : FulfillmentBuilder.op) (b : builder) :
  proto_obj b = VNone ->
  proto_obj (FulfillmentBuilder.step o b) = VNone \/
  is_Fulfillment (proto_obj (FulfillmentBuilder.step o b)) = true.
Proof.
  intros Hb. destruct b as [p]. cbn in Hb. subst p.
  destruct o as [obj ow | w t r ow | rt m mode | pm | ];
    cbn [FulfillmentBuilder.step].
  - rewrite load_fulfillment_eq. destruct (is_Fulfillment obj) eqn:Hobj;
      cbn; auto.
  - rewrite create_empty_fulfillment_eq. split_ifs; cbn; auto.
    destruct (new_Fulfillment w r t); cbn; auto.
  - rewrite add_response_message_eq. cbn. auto.
  - left. reflexivity.
  - left. reflexivity.
Qed.

Lemma step_transition_route_from_none
    (o : TransitionRouteBuilder.op) (b : builder) :
  proto_obj b = VNone ->
  proto_obj (TransitionRouteBuilder.step o b) = VNone \/
  is_TransitionRoute (proto_obj (TransitionRouteBuilder.step o b)) = true.
Proof.
  intros Hb. destruct b as [p]. cbn in Hb. subst p.
  destruct o as [obj ow | i c f tp tf ow]; cbn [TransitionRouteBuilder.step].
  - rewrite load_transition_route_eq.
    destruct (is_TransitionRoute obj) eqn:Hobj; cbn; auto.
  - rewrite create_empty_transition_route_eq.
    repeat match goal with
           | |- context [if ?c then (_, _) else _] => destruct c eqn:?
           end; cbn [snd proto_obj]; auto.
    match goal with
    | |- context [new_TransitionRoute ?a ?b ?c ?d ?e] =>
        destruct (new_TransitionRoute a b c d e)
    end; cbn [snd proto_obj]; auto.
Qed.

Lemma step_event_handler_from_none (o : EventHandlerBuilder.op) (b : builder) :
  proto_obj b = VNone ->
  proto_obj (EventHandlerBuilder.step o b) = VNone \/
  is_EventHandler (proto_obj (EventHandlerBuilder.step o b)) = true.
Proof.
  intros Hb. destruct b as [p]. cbn in Hb. subst p.
  destruct o as [obj ow | e f tp tf ow]; cbn [EventHandlerBuilder.step].
  - rewrite load_event_handler_eq.
    destruct (is_EventHandler obj) eqn:Hobj; cbn; auto.
  - rewrite create_empty_event_handler_eq. split_ifs; cbn; auto.
    destruct (new_EventHandler e f tp tf); cbn; auto.
Qed.

(** X10. Starting from a new builder, after every sequence of calls of its
    methods with any arguments the builder holds either nothing or a record
    of its own type. So the second branch of the existence checks, the
    [ValueError] on a held object of the wrong type, is never taken by a
    builder that is only used through its methods. *)
Theorem held_object_has_builder_type :
  (forall ops,
      (proto_obj (FulfillmentBuilder.run ops fresh) = VNone \/
       is_Fulfillment (proto_obj (FulfillmentBuilder.run ops fresh)) = true) /\
      fst (FulfillmentBuilder._check_fulfillment_exist
             (FulfillmentBuilder.run ops fresh))
      <> Raise FulfillmentBuilder.not_a_Fulfillment_type) /\
  (forall ops,
      (proto_obj (TransitionRouteBuilder.run ops fresh) = VNone \/
       is_TransitionRoute (proto_obj (TransitionRouteBuilder.run ops fresh))
       = true) /\
      fst (TransitionRouteBuilder._check_transition_route_exist
             (TransitionRouteBuilder.run ops fresh))
      <> Raise TransitionRouteBuilder.not_a_TransitionRoute_type) /\
  (forall ops,
      (proto_obj (EventHandlerBuilder.run ops fresh) = VNone \/
       is_EventHandler (proto_obj (EventHandlerBuilder.run ops fresh)) = true) /\
      fst (EventHandlerBuilder._check_event_handler_exist
             (EventHandlerBuilder.run ops fresh))
      <> Raise EventHandlerBuilder.not_an_EventHandler_type).
Proof.
  split; [ | split ].
  - assert (Hinv : forall ops b,
               proto_obj b = VNone \/ is_Fulfillment (proto_obj b) = true ->
               proto_obj (FulfillmentBuilder.run ops b) = VNone \/
               is_Fulfillment (proto_obj (FulfillmentBuilder.run ops b)) = true).
    { induction ops as [ | o ops IH ]; intros b Hb; [ exact Hb | ].
      apply IH. destruct Hb as [Hb | Hb].
      - apply step_fulfillment_from_none. exact Hb.
      - right. apply step_fulfillment. exact Hb. }
    intros ops. pose proof (Hinv ops fresh (or_introl eq_refl)) as H.
    split; [ exact H | ].
    rewrite check_fulfillment_eq.
    destruct H as [H | H]; rewrite H; cbn; [ discriminate | ].
    destruct (negb (truthy _)); cbn; discriminate.
  - assert (Hinv : forall ops b,
               proto_obj b = VNone \/ is_TransitionRoute (proto_obj b) = true ->
               proto_obj (TransitionRouteBuilder.run ops b) = VNone \/
               is_TransitionRoute (proto_obj (TransitionRouteBuilder.run ops b))
               = true).
    { induction ops as [ | o ops IH ]; intros b Hb; [ exact Hb | ].
      apply IH. destruct Hb as [Hb | Hb].
      - apply step_transition_route_from_none. exact Hb.
      - right. apply step_transition_route. exact Hb. }
    intros ops. pose proof (Hinv ops fresh (or_introl eq_refl)) as H.
    split; [ exact H | ].
    unfold TransitionRouteBuilder._check_transition_route_exist.
    unfold bind, get_proto_obj, raise, ret.
    destruct H as [H | H]; rewrite H; cbn; [ discriminate | ].
    destruct (negb (truthy _)); cbn; discriminate.
  - assert (Hinv : forall ops b,
               proto_obj b = VNone \/ is_EventHandler (proto_obj b) = true ->
               proto_obj (EventHandlerBuilder.run ops b) = VNone \/
               is_EventHandler (proto_obj (EventHandlerBuilder.run ops b))
               = true).
    { induction ops as [ | o ops IH ]; intros b Hb; [ exact Hb | ].
      apply IH. destruct Hb as [Hb | Hb].
      - apply step_event_handler_from_none. exact Hb.
      - right. apply step_event_handler. exact Hb. }
    intros ops. pose proof (Hinv ops fresh (or_introl eq_refl)) as H.
    split; [ exact H | ].
    unfold EventHandlerBuilder._check_event_handler_exist.
    unfold bind, get_proto_obj, raise, ret.
    destruct H as [H | H]; rewrite H; cbn; [ discriminate | ].
    destruct (negb (truthy _)); cbn; discriminate.
Qed.

(** ** The records that the create methods build *)


Lemma create_empty_fulfillment_Return_args
    (w t r ow v : pyval) (b b' : builder) :
  FulfillmentBuilder.create_empty_fulfillment w t r ow b = (Return v, b') ->
  exists f,
    new_Fulfillment w r t = Return f /\ v = VFulfillment f /\
    b' = mk_builder v /\
    truthy r && negb (is_bool r) = false /\
    truthy w && negb (truthy t) = false.
Proof.
  rewrite create_empty_fulfillment_eq.
  destruct (truthy r && negb (is_bool r)); [ discriminate | ].
  destruct ((truthy w && negb (is_str w)) || (truthy t && negb (is_str t)));
    [ discriminate | ].
  destruct (truthy w && negb (truthy t)); [ discriminate | ].
  destruct (truthy (proto_obj b) && negb (truthy ow)); [ discriminate | ].
  destruct (new_Fulfillment w r t) as [f | e]; [ | discriminate ].
  intros H. inversion H. subst. exists f. repeat split.
Qed.

(** X11. Every fulfillment that [create_empty_fulfillment] builds has no
    message and no preset, carries the webhook and the tag that were given as
    strings, and has a tag whenever it has a webhook. *)
Theorem created_fulfillment_shape (w t r ow v : pyval) (b b' : builder) :
  FulfillmentBuilder.create_empty_fulfillment w t r ow b = (Return v, b') ->
  exists f,
    v = VFulfillment f /\ proto_obj b' = VFulfillment f /\
    messages f = [] /\ set_parameter_actions f = [] /\
    (webhook f <> "" -> tag f <> "") /\
    (forall s, w = VStr s -> webhook f = s) /\
    (forall s, t = VStr s -> tag f = s) /\
    (forall x, r = VBool x -> return_partial_responses f = x).
Proof.
  intros H. apply create_empty_fulfillment_Return_args in H.
  destruct H as [f [Hnew [-> [-> [_ Hwt]]]]].
  exists f. split; [ reflexivity | ]. split; [ reflexivity | ].
  unfold new_Fulfillment, obind, str_field, bool_field in Hnew.
  destruct w as [ | | | sw | | | | | | | ]; try discriminate Hnew;
    destruct r as [ | br | zr | | | | | | | | ]; try discriminate Hnew;
    destruct t as [ | | | st | | | | | | | ]; try discriminate Hnew;
    inversion Hnew; subst; cbn in *;
    repeat split; try congruence;
    try (intros s Hs; inversion Hs; reflexivity);
    try (intros x Hx; inversion Hx; reflexivity);
    try (destruct sw; try destruct st; cbn in Hwt;
         first [ congruence | discriminate Hwt ]).
Qed.

Lemma created_fulfillment_shape_witness :
  exists f,
    VFulfillment (mk_Fulfillment [] "w" true "t" []) = VFulfillment f /\
    messages f = [] /\ set_parameter_actions f = [] /\
    (webhook f <> "" -> tag f <> "").
Proof.
  destruct (created_fulfillment_shape
              (VStr "w") (VStr "t") (VBool true) (VBool false)
              (VFulfillment (mk_Fulfillment [] "w" true "t" []))
              fresh
              (mk_builder (VFulfillment (mk_Fulfillment [] "w" true "t" [])))
              eq_refl)
    as [f [Hv [_ [Hm [Hp [Hwt _]]]]]].
  exists f. repeat split; assumption.
Defined.

(** X12. The fulfillment left by a successful [create_empty_fulfillment]
    passes the existence check of the add methods exactly when at least one
    of [webhook], [tag] and [return_partial_responses] was given with a true
    value; created from defaults only, it is refused by the check. *)
Theorem created_fulfillment_passes_check
    (w t r ow v : pyval) (b b' : builder) :
  FulfillmentBuilder.create_empty_fulfillment w t r ow b = (Return v, b') ->
  (FulfillmentBuilder._check_fulfillment_exist b' = (Return tt, b') <->
   truthy w || truthy t || truthy r = true) /\
  (truthy w || truthy t || truthy r = false ->
   FulfillmentBuilder._check_fulfillment_exist b'
   = (Raise FulfillmentBuilder.no_proto_obj, b')).
Proof.
  intros H. apply create_empty_fulfillment_Return_args in H.
  destruct H as [f [Hnew [-> [-> [Hr _]]]]].
  rewrite check_fulfillment_eq. cbn [proto_obj truthy is_Fulfillment negb].
  assert (Hf : bool_Fulfillment f = truthy w || truthy t || truthy r).
  { unfold new_Fulfillment, obind, str_field, bool_field in Hnew.
    destruct w as [ | | | sw | | | | | | | ]; try discriminate Hnew;
      destruct r as [ | br | zr | | | | | | | | ]; try discriminate Hnew;
      destruct t as [ | | | st | | | | | | | ]; try discriminate Hnew;
      inversion Hnew; subst; unfold bool_Fulfillment; cbn in *;
      try (rewrite andb_true_r in Hr; rewrite Hr);
      try reflexivity;
      try (destruct sw; reflexivity);
      try (destruct sw; destruct st; reflexivity);
      try (destruct st; reflexivity);
      try (destruct br; reflexivity);
      try (destruct sw; destruct br; reflexivity);
      try (destruct st; destruct br; reflexivity);
      try (destruct sw; destruct st; destruct br; reflexivity). }
  rewrite Hf.
  destruct (truthy w || truthy t || truthy r); cbn; split;
    try (split; intros; try reflexivity; discriminate);
    intros; try reflexivity; discriminate.
Qed.

Lemma created_fulfillment_passes_check_witness :
  FulfillmentBuilder._check_fulfillment_exist
    (mk_builder (VFulfillment (mk_Fulfillment [] "" false "t" [])))
  = (Return tt, mk_builder (VFulfillment (mk_Fulfillment [] "" false "t" []))) /\
  FulfillmentBuilder._check_fulfillment_exist
    (mk_builder (VFulfillment empty_Fulfillment))
  = (Raise FulfillmentBuilder.no_proto_obj,
     mk_builder (VFulfillment empty_Fulfillment)).
Proof.
  split.
  - apply (proj1 (created_fulfillment_passes_check
                    VNone (VStr "t") (VBool false) (VBool false)
                    (VFulfillment (mk_Fulfillment [] "" false "t" []))
                    fresh
                    (mk_builder (VFulfillment (mk_Fulfillment [] "" false "t" [])))
                    eq_refl)).
    reflexivity.
  - apply (proj2 (created_fulfillment_passes_check
                    VNone VNone (VBool false) (VBool false)
                    (VFulfillment empty_Fulfillment)
                    fresh
                    (mk_builder (VFulfillment empty_Fulfillment))
                    eq_refl)).
    reflexivity.
Defined.



(** X14. In an event handler that [create_empty_event_handler] builds,
    the trigger fulfillment is what was passed: with
    [trigger_fulfillment=None] it stays unset, nothing is substituted for
    it, unlike in a transition route; a fulfillment that was passed is
    stored as it is, even an empty one; and the empty dictionary, which the
    guard lets through because it is false, gives a present, empty
    fulfillment. *)
Theorem created_event_handler_fulfillment
    (ev f tp tf ow v : pyval) (b b' : builder) :
  EventHandlerBuilder.create_empty_event_handler ev f tp tf ow b
  = (Return v, b') ->
  exists h,
    v = VEventHandler h /\ proto_obj b' = VEventHandler h /\
    (f = VNone -> eh_trigger_fulfillment h = None) /\
    (forall g, f = VFulfillment g -> eh_trigger_fulfillment h = Some g) /\
    (f = VDict [] -> eh_trigger_fulfillment h = Some empty_Fulfillment).
Proof.
  intros H. rewrite create_empty_event_handler_eq in H.
  repeat match type of H with
         | (if ?c then (_, _) else _) = _ =>
             destruct c eqn:?; [ discriminate H | ]
         end.
  destruct (new_EventHandler ev f tp tf) as [h | e0] eqn:Hnew;
    [ | discriminate H ].
  inversion H. subst. exists h. split; [ reflexivity | ].
  split; [ reflexivity | ].
  unfold new_EventHandler, obind in Hnew.
  destruct (str_field "EventHandler" "event" ev); [ | discriminate Hnew ].
  destruct (Fulfillment_field "EventHandler" "trigger_fulfillment" f)
    as [o | e1] eqn:Hf; [ | discriminate Hnew ].
  destruct (target_field "EventHandler" tp tf); [ | discriminate Hnew ].
  inversion Hnew. cbn [eh_trigger_fulfillment].
  split; [ | split ].
  - intros ->. cbn in Hf. inversion Hf. reflexivity.
  - intros g ->. cbn in Hf. inversion Hf. reflexivity.
  - intros ->. cbn in Hf. inversion Hf. reflexivity.
Qed.

Lemma created_event_handler_fulfillment_witness :
  exists h,
    VEventHandler (mk_EventHandler "e" None None) = VEventHandler h /\
    eh_trigger_fulfillment h = None.
Proof.
  destruct (created_event_handler_fulfillment
              (VStr "e") VNone VNone VNone (VBool false)
              (VEventHandler (mk_EventHandler "e" None None))
              fresh
              (mk_builder (VEventHandler (mk_EventHandler "e" None None)))
              eq_refl)
    as [h [Hv [_ [Hnone _]]]].
  exists h. split; [ exact Hv | apply Hnone; reflexivity ].
Defined.

(** ** Order of the checks *)

Lemma str_field_Raise (cls fld : string) (v : pyval) (e : pyexc) :
  str_field cls fld v = Raise e -> exc_type e = TypeError.
Proof. destruct v; intros H; inversion H; reflexivity. Qed.

Lemma bool_field_Raise (cls fld : string) (v : pyval) (e : pyexc) :
  bool_field cls fld v = Raise e -> exc_type e = TypeError.
Proof. destruct v; intros H; inversion H; reflexivity. Qed.

Lemma Fulfillment_field_Raise (cls fld : string) (v : pyval) (e : pyexc) :
  Fulfillment_field cls fld v = Raise e -> exc_type e = TypeError.
Proof.
  destruct v as [ | ? | ? | ? | ? | d | ? | ? | ? | ? | ? ]; try destruct d;
    intros H; inversion H; reflexivity.
Qed.

Lemma target_field_Raise (cls : string) (tp tf : pyval) (e : pyexc) :
  target_field cls tp tf = Raise e -> exc_type e = TypeError.
Proof. destruct tp, tf; intros H; inversion H; reflexivity. Qed.

Lemma new_Fulfillment_Raise (w r t : pyval) (e : pyexc) :
  new_Fulfillment w r t = Raise e -> exc_type e = TypeError.
Proof.
  unfold new_Fulfillment, obind.
  destruct (str_field "Fulfillment" "webhook" w) eqn:Hw;
    [ | intros H; inversion H; subst; eapply str_field_Raise; exact Hw ].
  destruct (bool_field "Fulfillment" "return_partial_responses" r) eqn:Hr;
    [ | intros H; inversion H; subst; eapply bool_field_Raise; exact Hr ].
  destruct (str_field "Fulfillment" "tag" t) eqn:Ht;
    [ discriminate
    | intros H; inversion H; subst; eapply str_field_Raise; exact Ht ].
Qed.

Lemma new_TransitionRoute_Raise (i c f tp tf : pyval) (e : pyexc) :
  new_TransitionRoute i c f tp tf = Raise e -> exc_type e = TypeError.
Proof.
  unfold new_TransitionRoute, obind.
  destruct (str_field "TransitionRoute" "intent" i) eqn:Hi;
    [ | intros H; inversion H; subst; eapply str_field_Raise; exact Hi ].
  destruct (str_field "TransitionRoute" "condition" c) eqn:Hc;
    [ | intros H; inversion H; subst; eapply str_field_Raise; exact Hc ].
  destruct (Fulfillment_field "TransitionRoute" "trigger_fulfillment" f) eqn:Hf;
    [ | intros H; inversion H; subst; eapply Fulfillment_field_Raise; exact Hf ].
  destruct (target_field "TransitionRoute" tp tf) eqn:Ht;
    [ discriminate
    | intros H; inversion H; subst; eapply target_field_Raise; exact Ht ].
Qed.

Lemma new_EventHandler_Raise (ev f tp tf : pyval) (e : pyexc) :
  new_EventHandler ev f tp tf = Raise e -> exc_type e = TypeError.
Proof.
  unfold new_EventHandler, obind.
  destruct (str_field "EventHandler" "event" ev) eqn:Hev;
    [ | intros H; inversion H; subst; eapply str_field_Raise; exact Hev ].
  destruct (Fulfillment_field "EventHandler" "trigger_fulfillment" f) eqn:Hf;
    [ | intros H; inversion H; subst; eapply Fulfillment_field_Raise; exact Hf ].
  destruct (target_field "EventHandler" tp tf) eqn:Ht;
    [ discriminate
    | intros H; inversion H; subst; eapply target_field_Raise; exact Ht ].
Qed.

(** X15. The checks on the arguments of the create methods do not look at
    the builder and come before the gate on the held record: a call that
    raises one of the builder's own argument errors on a new builder (a
    [ValueError], or the exception on two targets) raises the same error on
    every builder, loaded or not, with or without [overwrite], and never the
    exception on the record already held. *)
Theorem argument_checks_come_first (b : builder) (e : pyexc) :
  (forall w t r ow,
      fst (FulfillmentBuilder.create_empty_fulfillment w t r ow fresh)
      = Raise e ->
      exc_type e = ValueError ->
      FulfillmentBuilder.create_empty_fulfillment w t r ow b = (Raise e, b)) /\
  (forall i c f tp tf ow,
      fst (TransitionRouteBuilder.create_empty_transition_route
             i c f tp tf ow fresh) = Raise e ->
      exc_type e = ValueError \/ e = TransitionRouteBuilder.at_most_one_target ->
      TransitionRouteBuilder.create_empty_transition_route i c f tp tf ow b
      = (Raise e, b)) /\
  (forall ev f tp tf ow,
      fst (EventHandlerBuilder.create_empty_event_handler ev f tp tf ow fresh)
      = Raise e ->
      exc_type e = ValueError \/ e = EventHandlerBuilder.at_most_one_target ->
      EventHandlerBuilder.create_empty_event_handler ev f tp tf ow b
      = (Raise e, b)).
Proof.
  split; [ | split ].
  - intros w t r ow H He. rewrite create_empty_fulfillment_eq in H |- *.
    cbn [proto_obj fresh truthy andb] in H.
    destruct (truthy r && negb (is_bool r));
      [ inversion H; reflexivity | ].
    destruct ((truthy w && negb (is_str w)) || (truthy t && negb (is_str t)));
      [ inversion H; reflexivity | ].
    destruct (truthy w && negb (truthy t)); [ inversion H; reflexivity | ].
    destruct (new_Fulfillment w r t) as [g | e0] eqn:Hnew;
      [ discriminate H | ].
    cbn in H. inversion H. subst e0.
    apply new_Fulfillment_Raise in Hnew. rewrite He in Hnew. discriminate Hnew.
  - intros i c f tp tf ow H He.
    rewrite create_empty_transition_route_eq in H |- *.
    cbn [proto_obj fresh truthy andb] in H.
    destruct ((truthy i && negb (is_str i)) || (truthy c && negb (is_str c)) ||
              (truthy tp && negb (is_str tp)) || (truthy tf && negb (is_str tf)));
      [ inversion H; reflexivity | ].
    destruct (truthy f && negb (is_Fulfillment f));
      [ inversion H; reflexivity | ].
    destruct (truthy tp && truthy tf); [ inversion H; reflexivity | ].
    match type of H with
    | context [new_TransitionRoute ?a1 ?a2 ?a3 ?a4 ?a5] =>
        destruct (new_TransitionRoute a1 a2 a3 a4 a5) as [g | e0] eqn:Hnew;
        [ discriminate H | ]
    end.
    cbn in H. inversion H. subst e0.
    apply new_TransitionRoute_Raise in Hnew.
    destruct He as [He | He]; [ | subst e ]; rewrite ?He in Hnew;
      discriminate Hnew.
  - intros ev f tp tf ow H He.
    rewrite create_empty_event_handler_eq in H |- *.
    cbn [proto_obj fresh truthy andb] in H.
    destruct (truthy ev && negb (is_str ev)); [ inversion H; reflexivity | ].
    destruct (truthy f && negb (is_Fulfillment f));
      [ inversion H; reflexivity | ].
    destruct (truthy tp && truthy tf); [ inversion H; reflexivity | ].
    destruct (new_EventHandler ev f tp tf) as [g | e0] eqn:Hnew;
      [ discriminate H | ].
    cbn in H. inversion H. subst e0.
    apply new_EventHandler_Raise in Hnew.
    destruct He as [He | He]; [ | subst e ]; rewrite ?He in Hnew;
      discriminate Hnew.
Qed.

Lemma argument_checks_come_first_witness :
  FulfillmentBuilder.create_empty_fulfillment
    (VStr "w") VNone (VBool false) (VBool false)
    (mk_builder (VFulfillment (mk_Fulfillment [] "v" false "u" [])))
  = (Raise FulfillmentBuilder.tag_required,
     mk_builder (VFulfillment (mk_Fulfillment [] "v" false "u" []))).
Proof.
  apply (proj1 (argument_checks_come_first
                  (mk_builder (VFulfillment (mk_Fulfillment [] "v" false "u" [])))
                  FulfillmentBuilder.tag_required));
    reflexivity.
Defined.

(** X16. With [overwrite] true, a create method does not look at what the
    builder holds: on any two builders the same call has the same outcome,
    and when it returns, both builders hold the same new record. *)
Theorem overwrite_ignores_held_record (ow : pyval) (b1 b2 : builder) :
  truthy ow = true ->
  (forall w t r,
      fst (FulfillmentBuilder.create_empty_fulfillment w t r ow b1)
      = fst (FulfillmentBuilder.create_empty_fulfillment w t r ow b2) /\
      (forall v,
          fst (FulfillmentBuilder.create_empty_fulfillment w t r ow b1)
          = Return v ->
          snd (FulfillmentBuilder.create_empty_fulfillment w t r ow b1)
          = mk_builder v /\
          snd (FulfillmentBuilder.create_empty_fulfillment w t r ow b2)
          = mk_builder v)) /\
  (forall i c f tp tf,
      fst (TransitionRouteBuilder.create_empty_transition_route
             i c f tp tf ow b1)
      = fst (TransitionRouteBuilder.create_empty_transition_route
               i c f tp tf ow b2) /\
      (forall v,
          fst (TransitionRouteBuilder.create_empty_transition_route
                 i c f tp tf ow b1) = Return v ->
          snd (TransitionRouteBuilder.create_empty_transition_route
                 i c f tp tf ow b1) = mk_builder v /\
          snd (TransitionRouteBuilder.create_empty_transition_route
                 i c f tp tf ow b2) = mk_builder v)) /\
  (forall ev f tp tf,
      fst (EventHandlerBuilder.create_empty_event_handler ev f tp tf ow b1)
      = fst (EventHandlerBuilder.create_empty_event_handler ev f tp tf ow b2) /\
      (forall v,
          fst (EventHandlerBuilder.create_empty_event_handler ev f tp tf ow b1)
          = Return v ->
          snd (EventHandlerBuilder.create_empty_event_handler ev f tp tf ow b1)
          = mk_builder v /\
          snd (EventHandlerBuilder.create_empty_event_handler ev f tp tf ow b2)
          = mk_builder v)).
Proof.
  intros How. split; [ | split ].
  - intros w t r. rewrite !create_empty_fulfillment_eq. rewrite How.
    cbn [negb]. rewrite !andb_false_r.
    split_ifs; try destruct (new_Fulfillment w r t); cbn [fst snd];
      (split; [ reflexivity | ]);
      intros v Hv; inversion Hv; split; reflexivity.
  - intros i c f tp tf. rewrite !create_empty_transition_route_eq. rewrite How.
    cbn [negb]. rewrite !andb_false_r.
    repeat match goal with
           | |- context [if ?c then (_, _) else _] => destruct c eqn:?
           end;
      try match goal with
          | |- context [new_TransitionRoute ?a1 ?a2 ?a3 ?a4 ?a5] =>
              destruct (new_TransitionRoute a1 a2 a3 a4 a5)
          end;
      cbn [fst snd]; (split; [ reflexivity | ]);
      intros v Hv; inversion Hv; split; reflexivity.
  - intros ev f tp tf. rewrite !create_empty_event_handler_eq. rewrite How.
    cbn [negb]. rewrite !andb_false_r.
    split_ifs; try destruct (new_EventHandler ev f tp tf); cbn [fst snd];
      (split; [ reflexivity | ]);
      intros v Hv; inversion Hv; split; reflexivity.
Qed.

Lemma overwrite_ignores_held_record_witness :
  fst (FulfillmentBuilder.create_empty_fulfillment
         (VStr "w") (VStr "t") (VBool false) (VBool true) fresh)
  = fst (FulfillmentBuilder.create_empty_fulfillment
           (VStr "w") (VStr "t") (VBool false) (VBool true)
           (mk_builder (VFulfillment (mk_Fulfillment [] "v" false "u" [])))).
Proof.
  apply (proj1 (overwrite_ignores_held_record (VBool true) fresh
                  (mk_builder (VFulfillment (mk_Fulfillment [] "v" false "u" [])))
                  eq_refl)).
Defined.

(** ** The creator of response messages, called as a function *)

(** X17. The argument [mode] of [_response_message_creator] matters for
    the response type ['output_audio_text'] only: for every other response
    type, valid or not, and every message, the call has the same outcome
    whatever the mode is, also when the mode is left to its default. *)
Theorem creator_ignores_mode (rt m mode : pyval) :
  eq_str rt "output_audio_text" = false ->
  FulfillmentBuilder._response_message_creator [rt; m; mode] []
  = FulfillmentBuilder._response_message_creator [rt; m] [] /\
  FulfillmentBuilder._response_message_creator []
    [("response_type", rt); ("message", m); ("mode", mode)]
  = FulfillmentBuilder._response_message_creator [rt; m] [].
Proof.
  intros Hrt.
  assert (H : FulfillmentBuilder.response_message_of rt m mode
              = FulfillmentBuilder.response_message_of rt m VNone).
  { unfold FulfillmentBuilder.response_message_of. rewrite Hrt. reflexivity. }
  split.
  - rewrite creator_as_function.
    change (FulfillmentBuilder._response_message_creator [rt; m] [])
      with (FulfillmentBuilder._response_message_creator [rt; m; VNone] []).
    rewrite creator_as_function, H. reflexivity.
  - change (FulfillmentBuilder._response_message_creator []
              [("response_type", rt); ("message", m); ("mode", mode)])
      with (FulfillmentBuilder._response_message_creator [rt; m; mode] []).
    change (FulfillmentBuilder._response_message_creator [rt; m] [])
      with (FulfillmentBuilder._response_message_creator [rt; m; VNone] []).
    rewrite !creator_as_function, H. reflexivity.
Qed.

Lemma creator_ignores_mode_witness :
  FulfillmentBuilder._response_message_creator
    [VStr "play_audio"; VStr "gs://bucket/a.wav"; VStr "ssml"] []
  = FulfillmentBuilder._response_message_creator
      [VStr "play_audio"; VStr "gs://bucket/a.wav"] [].
Proof.
  apply (creator_ignores_mode (VStr "play_audio") (VStr "gs://bucket/a.wav")
           (VStr "ssml")).
  reflexivity.
Defined.

(** X18. A response type that is none of the six names, or not a string at
    all, makes [_response_message_creator] raise the [ValueError] that lists
    the six names, whatever the message and the mode are. *)
Theorem creator_rejects_unknown_type (rt m mode : pyval) :
  eq_str rt "text" = false ->
  eq_str rt "live_agent_handoff" = false ->
  eq_str rt "conversation_success" = false ->
  eq_str rt "output_audio_text" = false ->
  eq_str rt "play_audio" = false ->
  eq_str rt "telephony_transfer_call" = false ->
  FulfillmentBuilder._response_message_creator [rt; m; mode] []
  = Raise FulfillmentBuilder.bad_response_type.
Proof.
  intros H1 H2 H3 H4 H5 H6. rewrite creator_as_function.
  unfold FulfillmentBuilder.response_message_of.
  rewrite H1, H2, H3, H4, H5, H6. reflexivity.
Qed.

Lemma creator_rejects_unknown_type_witness :
  FulfillmentBuilder._response_message_creator
    [VStr "Text"; VStr "hi"; VNone] []
  = Raise FulfillmentBuilder.bad_response_type.
Proof.
  apply (creator_rejects_unknown_type (VStr "Text") (VStr "hi") VNone);
    reflexivity.
Defined.

(** X19. Called with its three arguments, [_response_message_creator]
    never returns the response message that it builds: whenever it returns,
    it returns [None]. And for every response type other than the two that
    take a dictionary, ['live_agent_handoff'] and ['conversation_success'],
    whatever it raises is one of its own [ValueError]s. *)
Theorem creator_returns_None_or_raises (rt m mode : pyval) :
  (forall v,
      FulfillmentBuilder._response_message_creator [rt; m; mode] [] = Return v ->
      v = VNone) /\
  (eq_str rt "live_agent_handoff" = false ->
   eq_str rt "conversation_success" = false ->
   forall e,
     FulfillmentBuilder._response_message_creator [rt; m; mode] [] = Raise e ->
     exc_type e = ValueError).
Proof.
  rewrite creator_as_function. split.
  - intros v H.
    destruct (FulfillmentBuilder.response_message_of rt m mode);
      inversion H; reflexivity.
  - intros H1 H2 e H.
    unfold FulfillmentBuilder.response_message_of in H. rewrite H1, H2 in H.
    destruct (eq_str rt "text");
      [ destruct m; try (inversion H; reflexivity);
        destruct (negb (forallb is_str l)); inversion H; reflexivity | ].
    destruct (eq_str rt "output_audio_text");
      [ destruct m; try (inversion H; reflexivity);
        destruct (eq_str mode "text"); [ discriminate H | ];
        destruct (eq_str mode "ssml"); [ discriminate H | ];
        inversion H; reflexivity | ].
    destruct (eq_str rt "play_audio");
      [ destruct m; inversion H; reflexivity | ].
    destruct (eq_str rt "telephony_transfer_call");
      [ destruct m; inversion H; reflexivity | ].
    inversion H. reflexivity.
Qed.

Lemma creator_returns_None_or_raises_witness :
  exc_type FulfillmentBuilder.text_str_or_list = ValueError.
Proof.
  apply (proj2 (creator_returns_None_or_raises (VStr "text") (VInt 5) VNone)
           eq_refl eq_refl FulfillmentBuilder.text_str_or_list).
  reflexivity.
Defined.

(** X20. For the response type ['text'], [_response_message_creator]
    accepts exactly a string or a list whose elements are all strings, the
    empty list included; every other message raises. *)
Theorem creator_text_accepts (m mode : pyval) :
  FulfillmentBuilder._response_message_creator [VStr "text"; m; mode] []
  = Return VNone <->
  is_str m = true \/ exists l, m = VList l /\ forallb is_str l = true.
Proof.
  rewrite creator_as_function.
  change (FulfillmentBuilder.response_message_of (VStr "text") m mode)
    with (match m with
          | VStr s => Return (RM_text [s])
          | VList l =>
              if negb (forallb is_str l)
              then Raise FulfillmentBuilder.only_strings_in_list
              else Return (RM_text (strings_of l))
          | _ => Raise FulfillmentBuilder.text_str_or_list
          end).
  split.
  - destruct m; try discriminate; [ left; reflexivity | ].
    destruct (forallb is_str l) eqn:Hl; cbn; [ | discriminate ].
    intros _. right. exists l. split; [ reflexivity | exact Hl ].
  - intros [Hm | [l [-> Hl]]].
    + destruct m; try discriminate Hm. reflexivity.
    + rewrite Hl. reflexivity.
Qed.

(** X21. For the response types ['play_audio'] and
    ['telephony_transfer_call'] the message is only tested for being a
    string: every string is accepted, the empty one too (the URI and the
    phone number are not validated), and everything else raises. *)
Theorem creator_accepts_any_string (m mode : pyval) :
  (FulfillmentBuilder._response_message_creator [VStr "play_audio"; m; mode] []
   = Return VNone <-> is_str m = true) /\
  (FulfillmentBuilder._response_message_creator
     [VStr "telephony_transfer_call"; m; mode] []
   = Return VNone <-> is_str m = true).
Proof.
  rewrite !creator_as_function.
  split; destruct m; cbn; split; intros H; try reflexivity; discriminate H.
Qed.

(** ** The creator called through an instance *)

Lemma bind_keywords_keeps (fn : string) (names : list string)
    (kwargs : list (string * pyval)) :
  forall (e e' : env) (k : string) (v : pyval),
    lookup e k = Some v ->
    bind_keywords fn names e kwargs = Return e' ->
    lookup e' k = Some v.
Proof.
  induction kwargs as [ | [k0 v0] kwargs IH ]; intros e e' k v Hk H.
  - cbn in H. inversion H. subst. exact Hk.
  - cbn in H.
    destruct (negb (existsb (String.eqb k0) names)); [ discriminate H | ].
    destruct (lookup e k0) eqn:Hk0; [ discriminate H | ].
    apply (IH _ _ k v) in H; [ exact H | ].
    cbn. destruct (String.eqb k0 k) eqn:Heq; [ | exact Hk ].
    apply String.eqb_eq in Heq. subst k0. rewrite Hk in Hk0. discriminate Hk0.
Qed.

Lemma fill_defaults_keeps (fn : string) (ps : list (string * option pyval)) :
  forall (e e' : env) (k : string) (v : pyval),
    lookup e k = Some v ->
    fill_defaults fn ps e = Return e' ->
    lookup e' k = Some v.
Proof.
  induction ps as [ | [p d] ps IH ]; intros e e' k v Hk H.
  - cbn in H. inversion H. subst. exact Hk.
  - cbn in H. destruct (lookup e p) eqn:Hp.
    + apply (IH _ _ k v) in H; assumption.
    + destruct d as [dv | ]; [ | discriminate H ].
      apply (IH _ _ k v) in H; [ exact H | ].
      cbn. destruct (String.eqb p k) eqn:Heq; [ | exact Hk ].
      apply String.eqb_eq in Heq. subst p. rewrite Hk in Hp. discriminate Hp.
Qed.

Lemma bind_keywords_Raise (fn : string) (names : list string)
    (kwargs : list (string * pyval)) :
  forall (e : env) (x : pyexc),
    bind_keywords fn names e kwargs = Raise x -> exc_type x = TypeError.
Proof.
  induction kwargs as [ | [k0 v0] kwargs IH ]; intros e x H; cbn in H.
  - discriminate H.
  - destruct (negb (existsb (String.eqb k0) names));
      [ inversion H; reflexivity | ].
    destruct (lookup e k0); [ inversion H; reflexivity | ].
    eapply IH. exact H.
Qed.

Lemma fill_defaults_Raise (fn : string) (ps : list (string * option pyval)) :
  forall (e : env) (x : pyexc),
    fill_defaults fn ps e = Raise x -> exc_type x = TypeError.
Proof.
  induction ps as [ | [p d] ps IH ]; intros e x H; cbn in H.
  - discriminate H.
  - destruct (lookup e p).
    + eapply IH. exact H.
    + destruct d; [ eapply IH; exact H | inversion H; reflexivity ].
Qed.

(** X22. However [_response_message_creator] is called through a builder
    instance, with positional arguments, keywords or both, the call raises:
    the instance takes the place of [response_type], so the binding of the
    arguments fails with a [TypeError], or the instance is compared with the
    six names and the [ValueError] on the response type is raised. *)
Theorem creator_through_instance_raises
    (held : pyval) (args : list pyval) (kwargs : list (string * pyval)) :
  exists e,
    FulfillmentBuilder._response_message_creator (VBuilder held :: args) kwargs
    = Raise e /\
    (exc_type e = TypeError \/ e = FulfillmentBuilder.bad_response_type).
Proof.
  unfold FulfillmentBuilder._response_message_creator, bind_args.
  cbn [fn_name fn_params FulfillmentBuilder._response_message_creator_sig].
  destruct (bind_positional "_response_message_creator"
              [("response_type", None); ("message", None); ("mode", Some VNone)]
              (VBuilder held :: args)) as [e0 | x] eqn:Hpos.
  - assert (H0 : lookup e0 "response_type" = Some (VBuilder held)).
    { cbn in Hpos.
      destruct args as [ | a1 [ | a2 [ | a3 args ] ] ]; cbn in Hpos;
        inversion Hpos; reflexivity. }
    destruct (bind_keywords "_response_message_creator"
                (map fst
                   [("response_type", None); ("message", None);
                    ("mode", Some VNone)]) e0 kwargs) as [e1 | x] eqn:Hkw.
    + pose proof (bind_keywords_keeps _ _ _ _ _ _ _ H0 Hkw) as H1.
      destruct (fill_defaults "_response_message_creator"
                  [("response_type", None); ("message", None);
                   ("mode", Some VNone)] e1) as [e2 | x] eqn:Hfill.
      * pose proof (fill_defaults_keeps _ _ _ _ _ _ H1 Hfill) as H2.
        unfold obind at 1. unfold get at 1. rewrite H2.
        exists FulfillmentBuilder.bad_response_type.
        split; [ reflexivity | right; reflexivity ].
      * exists x. split; [ reflexivity | left ].
        eapply fill_defaults_Raise. exact Hfill.
    + exists x. split; [ reflexivity | left ].
      eapply bind_keywords_Raise. exact Hkw.
  - exists x. split; [ reflexivity | left ].
    cbn in Hpos.
    destruct args as [ | a1 [ | a2 [ | a3 args ] ] ]; cbn in Hpos;
      inversion Hpos; reflexivity.
Qed.

(** ** The models of the client library on the values that the guards let through *)

Example Struct_update_nested_key :
  Struct_update [(VStr "a", VDict [(VInt 1, VStr "x")])] = Raise bad_struct_key.
Proof. reflexivity. Qed.

Example Struct_update_large_int :
  Struct_update [(VStr "a", VInt (10 ^ 400))] = Raise int_too_large.
Proof. vm_compute. reflexivity. Qed.

Example Struct_update_nested :
  Struct_update [(VStr "a", VList [VInt 1; VNone; VDict [(VStr "b", VBool true)]])]
  = Return [("a", SList [SNumber 1; SNull; SStruct [("b", SBool true)]])].
Proof. vm_compute. reflexivity. Qed.

Example event_handler_with_empty_dict :
  EventHandlerBuilder.create_empty_event_handler
    (VStr "e") (VDict []) VNone VNone (VBool false) fresh
  = (Return (VEventHandler (mk_EventHandler "e" (Some empty_Fulfillment) None)),
     mk_builder
       (VEventHandler (mk_EventHandler "e" (Some empty_Fulfillment) None))).
Proof. reflexivity. Qed.
